(** * producto.py: products, sales and their two file-backed stores

    A shallow embedding of [producto.py].  The program is dynamically typed,
    so a field of a record holds a Python value; the two files are held in a
    finite map from path to content; every method of the managers is a
    computation over that map and the console output, which either returns
    or raises. *)

From Stdlib Require Import ZArith.
From Stdlib Require Import Floats.PrimFloat Floats.SpecFloat Floats.FloatOps.
From stdpp Require Import gmap strings list.

#[local] Set Warnings "-register-all".
Local Open Scope string_scope.
Local Open Scope list_scope.
Local Open Scope Z_scope.

(** ** Python values *)

(** The values that [json.load] produces, which are also the values that
    [input], [int] and [float] hand to the program.  A [dict] read from
    JSON has string keys; it is kept as the list of its items in insertion
    order (its keys are distinct). *)
Inductive pyval : Type :=
| PNone
| PBool (b : bool)
| PInt (z : Z)
| PFloat (f : float)
| PStr (s : string)
| PList (l : list pyval)
| PDict (d : list (string * pyval)).

Inductive exn : Type :=
| TypeError
| ValueError
| OverflowError
| MemoryError.

Inductive result (A : Type) : Type :=
| Ok (a : A)
| Raise (e : exn).
Arguments Ok {A} a.
Arguments Raise {A} e.

Definition result_bind {A B} (r : result A) (k : A → result B) : result B :=
  match r with
  | Ok a => k a
  | Raise e => Raise e
  end.

(** [d[k]] on the items of a dict. *)
Fixpoint assoc {A} (k : string) (d : list (string * A)) : option A :=
  match d with
  | [] => None
  | (k', v) :: d' => if String.eqb k' k then Some v else assoc k d'
  end.

Module Py.

(** [float(z)] as CPython's [PyLong_AsDouble] computes it: the nearest
    double, ties to even, and [OverflowError] when that is out of range. *)
Definition float_of_int (z : Z) : result float :=
  let f := SF2Prim (binary_normalize prec emax z 0 false) in
  if PrimFloat.is_infinity f then Raise OverflowError else Ok f.

(** A float against an int: Python compares the two exact values and
    answers nothing for a NaN. *)
Definition float_cmp_int (f : float) (z : Z) : option comparison :=
  match Prim2SF f with
  | S754_nan => None
  | S754_zero _ => Some (0 ?= z)
  | S754_infinity s => Some (if s then Lt else Gt)
  | S754_finite s m e =>
      let n := if s then Z.neg m else Z.pos m in
      Some (if 0 <=? e then n * 2 ^ e ?= z else n ?= z * 2 ^ (- e))
  end.

Definition int_eq (z : Z) (b : pyval) : bool :=
  match b with
  | PBool y => z =? Z.b2z y
  | PInt y => z =? y
  | PFloat g => match float_cmp_int g z with Some Eq => true | _ => false end
  | _ => false
  end.

Definition float_eq (f : float) (b : pyval) : bool :=
  match b with
  | PBool y => match float_cmp_int f (Z.b2z y) with Some Eq => true | _ => false end
  | PInt y => match float_cmp_int f y with Some Eq => true | _ => false end
  | PFloat g => PrimFloat.eqb f g
  | _ => false
  end.

(** [a == b].  [bool] is a subclass of [int]; numbers compare by value
    across [int] and [float]; a NaN equals nothing. *)
Fixpoint eq (a b : pyval) {struct a} : bool :=
  match a, b with
  | PNone, PNone => true
  | PBool x, _ => int_eq (Z.b2z x) b
  | PInt x, _ => int_eq x b
  | PFloat f, _ => float_eq f b
  | PStr s, PStr t => String.eqb s t
  | PList l, PList m =>
      (fix all2 (l m : list pyval) {struct l} : bool :=
         match l, m with
         | [], [] => true
         | x :: l', y :: m' => eq x y && all2 l' m'
         | _, _ => false
         end) l m
  | PDict d, PDict e =>
      (length d =? length e)%nat &&
      (fix all (d : list (string * pyval)) {struct d} : bool :=
         match d with
         | [] => true
         | (k, v) :: d' =>
             match assoc k e with
             | Some w => eq v w
             | None => false
             end && all d'
         end) d
  | _, _ => false
  end.

(** [bool(a)], the test of [if a:]. *)
Definition truth (a : pyval) : bool :=
  match a with
  | PNone => false
  | PBool b => b
  | PInt z => negb (z =? 0)
  | PFloat f => negb (PrimFloat.eqb f 0%float)
  | PStr s => negb (String.eqb s "")
  | PList l => match l with [] => false | _ => true end
  | PDict d => match d with [] => false | _ => true end
  end.

(** [a is not None]. *)
Definition is_not_None (a : pyval) : bool :=
  match a with
  | PNone => false
  | _ => true
  end.

(** [a >= c] for an int [c]. *)
Definition ge_int (a : pyval) (c : Z) : result bool :=
  match a with
  | PBool b => Ok (c <=? Z.b2z b)
  | PInt z => Ok (c <=? z)
  | PFloat f =>
      Ok (match float_cmp_int f c with
          | Some Eq | Some Gt => true
          | Some Lt | None => false
          end)
  | PNone | PStr _ | PList _ | PDict _ => Raise TypeError
  end.

(** [a - c] for an int [c]. *)
Definition sub_int (a : pyval) (c : Z) : result pyval :=
  match a with
  | PBool b => Ok (PInt (Z.b2z b - c))
  | PInt z => Ok (PInt (z - c))
  | PFloat f => result_bind (float_of_int c) (λ g, Ok (PFloat (f - g)%float))
  | PNone | PStr _ | PList _ | PDict _ => Raise TypeError
  end.

Definition ssize_t_max : Z := 2 ^ 63 - 1.

(** The number of copies [seq * c] makes of a sequence of [len] items:
    the count has to fit an index, a count below one gives the empty
    sequence, and a result longer than an index can say is refused,
    with [OverflowError] by a str and with [MemoryError] by a list.
    The memory that the copies take is not counted. *)
Definition copies (too_long : exn) (len : nat) (c : Z) : result nat :=
  if (c <? - ssize_t_max - 1) || (ssize_t_max <? c) then Raise OverflowError
  else if c <=? 0 then Ok 0%nat
  else if ssize_t_max <? Z.of_nat len * c then Raise too_long
  else Ok (Z.to_nat c).

Fixpoint str_repeat (s : string) (n : nat) : string :=
  match n with
  | O => ""
  | S n' => (s ++ str_repeat s n')%string
  end.

(** [a * c] for an int [c]: a product of numbers, or a sequence repeated. *)
Definition mul_int (a : pyval) (c : Z) : result pyval :=
  match a with
  | PBool b => Ok (PInt (Z.b2z b * c))
  | PInt z => Ok (PInt (z * c))
  | PFloat f => result_bind (float_of_int c) (λ g, Ok (PFloat (f * g)%float))
  | PStr s =>
      result_bind (copies OverflowError (String.length s) c)
                  (λ n, Ok (PStr (str_repeat s n)))
  | PList l =>
      result_bind (copies MemoryError (length l) c)
                  (λ n, Ok (PList (mjoin (replicate n l))))
  | PNone | PDict _ => Raise TypeError
  end.

(** The items [for x in a] visits: the elements of a list, the keys of
    a dict, the characters of a str; the other values are not iterable. *)
Definition iter (a : pyval) : result (list pyval) :=
  match a with
  | PList l => Ok l
  | PDict d => Ok (map (λ kv, PStr kv.1) d)
  | PStr s => Ok (map (λ c, PStr (String c "")) (String.list_ascii_of_string s))
  | PNone | PBool _ | PInt _ | PFloat _ => Raise TypeError
  end.

(** Whether [f"{a:.2f}"] can be formatted: a number can (an int by way
    of [float]), a [str] refuses the format code, the others have no
    format codes at all. *)
Definition format_2f (a : pyval) : result unit :=
  match a with
  | PBool _ | PFloat _ => Ok tt
  | PInt z => result_bind (float_of_int z) (λ _, Ok tt)
  | PStr _ => Raise ValueError
  | PNone | PList _ | PDict _ => Raise TypeError
  end.

End Py.

(** A list comprehension whose element expression may raise. *)
Fixpoint result_mapM {A B} (f : A → result B) (l : list A) : result (list B) :=
  match l with
  | [] => Ok []
  | x :: l' =>
      result_bind (f x) (λ y, result_bind (result_mapM f l') (λ ys, Ok (y :: ys)))
  end.

(** ** The files and the console *)

(** What a file holds: text that [json.load] rejects with
    [JSONDecodeError], or JSON text, kept as the value [json.load] returns
    for it and [json.dump] writes it from.  A path that is not in the map
    has no file.  A file whose bytes are not text in the encoding that
    [open] reads with is not among these. *)
Inductive content : Type :=
| Undecodable
| Json (v : pyval).

(** A line of console output.  A message built by an f-string keeps the
    value it formats instead of the digits. *)
Inductive line : Type :=
| Texto (s : string)
| ProductoRegistrado (nombre : pyval)
| ProductoEliminado (id : pyval)
| VentaRegistrada (total : pyval).

Record world : Type := World {
  files : gmap string content;
  stdout : list line
}.

(** A method: from a world to a world, returning or raising.  The files
    written before an exception stay written. *)
Definition M (A : Type) : Type := world → result A * world.

Definition ret {A} (a : A) : M A := λ w, (Ok a, w).

Definition bind {A B} (c : M A) (k : A → M B) : M B :=
  λ w, match c w with
       | (Ok a, w') => k a w'
       | (Raise e, w') => (Raise e, w')
       end.

Definition lift {A} (r : result A) : M A := λ w, (r, w).

Definition print (l : line) : M unit :=
  λ w, (Ok tt, World (files w) (stdout w ++ [l])).

(** [with open(path, 'w') as archivo: json.dump(v, archivo, indent=4)] *)
Definition json_dump (path : string) (v : pyval) : M unit :=
  λ w, (Ok tt, World (<[path := Json v]> (files w)) (stdout w)).

Notation "x <- c1 ;; c2" := (bind c1 (λ x, c2))
  (at level 100, c1 at next level, right associativity).
Notation "c1 ;; c2" := (bind c1 (λ _, c2))
  (at level 100, right associativity).

(** ** The records *)

(** [Producto] and [ProductoEspecial] in one record: [descuento] is there
    for a [ProductoEspecial] only, so its presence tells the class.  The
    annotations of the dataclass are not enforced: a field holds whatever
    value it was given. *)
Record Producto : Type := mkProducto {
  id : pyval;
  nombre : pyval;
  precio : pyval;
  categoria : pyval;
  stock : pyval;
  descuento : option pyval
}.

Record Venta : Type := mkVenta {
  producto_id : pyval;
  cantidad : pyval;
  fecha : pyval;
  total : pyval
}.

Definition set_stock (p : Producto) (v : pyval) : Producto :=
  mkProducto (id p) (nombre p) (precio p) (categoria p) v (descuento p).
Definition set_nombre (p : Producto) (v : pyval) : Producto :=
  mkProducto (id p) v (precio p) (categoria p) (stock p) (descuento p).
Definition set_precio (p : Producto) (v : pyval) : Producto :=
  mkProducto (id p) (nombre p) v (categoria p) (stock p) (descuento p).
Definition set_categoria (p : Producto) (v : pyval) : Producto :=
  mkProducto (id p) (nombre p) (precio p) v (stock p) (descuento p).

(** [producto.__dict__] *)
Definition Producto_dict (p : Producto) : list (string * pyval) :=
  [("id", id p); ("nombre", nombre p); ("precio", precio p);
   ("categoria", categoria p); ("stock", stock p)]
  ++ match descuento p with
     | Some d => [("descuento", d)]
     | None => []
     end.

(** [venta.__dict__] *)
Definition Venta_dict (v : Venta) : list (string * pyval) :=
  [("producto_id", producto_id v); ("cantidad", cantidad v);
   ("fecha", fecha v); ("total", total v)].

(** A call that unpacks the dict [d] into keyword arguments of a function
    with the parameters [params], none with a default: it goes through
    when the keys of [d] are exactly [params]. *)
Definition keywords_match (params : list string) (d : list (string * pyval)) : bool :=
  forallb (λ kv, bool_decide (kv.1 ∈ params)) d
  && forallb (λ k, bool_decide (is_Some (assoc k d))) params.

(** [Producto] called with the items of [d] as keyword arguments. *)
Definition Producto_kw (d : list (string * pyval)) : result Producto :=
  if keywords_match ["id"; "nombre"; "precio"; "categoria"; "stock"] d then
    match assoc "id" d, assoc "nombre" d, assoc "precio" d,
          assoc "categoria" d, assoc "stock" d with
    | Some a, Some b, Some c, Some e, Some f => Ok (mkProducto a b c e f None)
    | _, _, _, _, _ => Raise TypeError
    end
  else Raise TypeError.

(** [ProductoEspecial] called with the items of [d] as keyword arguments. *)
Definition ProductoEspecial_kw (d : list (string * pyval)) : result Producto :=
  if keywords_match ["id"; "nombre"; "precio"; "categoria"; "stock"; "descuento"] d then
    match assoc "id" d, assoc "nombre" d, assoc "precio" d,
          assoc "categoria" d, assoc "stock" d, assoc "descuento" d with
    | Some a, Some b, Some c, Some e, Some f, Some g =>
        Ok (mkProducto a b c e f (Some g))
    | _, _, _, _, _, _ => Raise TypeError
    end
  else Raise TypeError.

(** [Venta] called with the items of [d] as keyword arguments. *)
Definition Venta_kw (d : list (string * pyval)) : result Venta :=
  if keywords_match ["producto_id"; "cantidad"; "fecha"; "total"] d then
    match assoc "producto_id" d, assoc "cantidad" d, assoc "fecha" d,
          assoc "total" d with
    | Some a, Some b, Some c, Some e => Ok (mkVenta a b c e)
    | _, _, _, _ => Raise TypeError
    end
  else Raise TypeError.

(** The argument of [json.dump] in the two save methods: the list of the
    [__dict__] of every record. *)
Definition productos_json (productos : list Producto) : pyval :=
  PList (map (λ producto, PDict (Producto_dict producto)) productos).

Definition ventas_json (ventas : list Venta) : pyval :=
  PList (map (λ venta, PDict (Venta_dict venta)) ventas).

Definition read_file (path : string) : M (option content) :=
  λ w, (Ok (files w !! path), w).

(** ** ProductoManager *)

Module ProductoManager.

Record t : Type := new { archivo : string }.

(** The element expression of the comprehension in [cargar_productos]:
    a dict goes to one of the two classes by its keys.  Any other value
    ends in a [TypeError], from the test [in] (a number, a bool, None)
    or from the unpacking, which wants a mapping (a str, a list). *)
Definition desde_json (producto : pyval) : result Producto :=
  match producto with
  | PDict d =>
      if negb (bool_decide (is_Some (assoc "descuento" d)))
      then Producto_kw d
      else ProductoEspecial_kw d
  | _ => Raise TypeError
  end.

Definition cargar_productos (self : t) : M (list Producto) :=
  f <- read_file (archivo self) ;;
  match f with
  | None => ret []
  | Some Undecodable =>
      print (Texto "Error al leer el archivo de productos.") ;;
      ret []
  | Some (Json v) =>
      items <- lift (Py.iter v) ;;
      lift (result_mapM desde_json items)
  end.

Definition guardar_productos (self : t) (productos : list Producto) : M unit :=
  json_dump (archivo self) (productos_json productos).

Definition registrar_producto (self : t) (nuevo_producto : Producto) : M unit :=
  productos <- cargar_productos self ;;
  if existsb (λ producto, Py.eq (id producto) (id nuevo_producto)) productos then
    print (Texto "ERROR: Ya existe un producto con ese ID.")
  else
    guardar_productos self (productos ++ [nuevo_producto]) ;;
    print (ProductoRegistrado (nombre nuevo_producto)).

(** The assignments inside the loop of [actualizar_producto]. *)
Definition actualizar_campos (producto : Producto)
    (nombre' precio' categoria' stock' : pyval) : Producto :=
  let producto := if Py.truth nombre' then set_nombre producto nombre' else producto in
  let producto := if Py.truth precio' then set_precio producto precio' else producto in
  let producto := if Py.truth categoria' then set_categoria producto categoria' else producto in
  if Py.is_not_None stock' then set_stock producto stock' else producto.

(** The loop stops at the first product whose [id] equals the one
    asked for: [list_find] gives its index and the product.  The
    arguments left out of a call are [PNone]. *)
Definition actualizar_producto (self : t)
    (id' nombre' precio' categoria' stock' : pyval) : M unit :=
  productos <- cargar_productos self ;;
  match list_find (λ producto, Is_true (Py.eq (id producto) id')) productos with
  | Some (i, producto) =>
      let producto := actualizar_campos producto nombre' precio' categoria' stock' in
      guardar_productos self (<[i := producto]> productos) ;;
      print (Texto "Producto actualizado exitosamente.")
  | None => print (Texto "ERROR: No se encontró un producto con ese ID.")
  end.

Definition eliminar_producto (self : t) (id' : pyval) : M unit :=
  productos <- cargar_productos self ;;
  match list_find (λ producto, Is_true (Py.eq (id producto) id')) productos with
  | Some (i, _) =>
      guardar_productos self (delete i productos) ;;
      print (ProductoEliminado id')
  | None => print (Texto "ERROR: No se encontró un producto con ese ID.")
  end.

End ProductoManager.

(** ** VentaManager *)

Module VentaManager.

Record t : Type := new { archivo : string }.

(** The element expression of the comprehension in [cargar_ventas]. *)
Definition desde_json (venta : pyval) : result Venta :=
  match venta with
  | PDict d => Venta_kw d
  | _ => Raise TypeError
  end.

Definition cargar_ventas (self : t) : M (list Venta) :=
  f <- read_file (archivo self) ;;
  match f with
  | None => ret []
  | Some Undecodable =>
      print (Texto "Error al leer el archivo de ventas.") ;;
      ret []
  | Some (Json v) =>
      items <- lift (Py.iter v) ;;
      lift (result_mapM desde_json items)
  end.

Definition guardar_ventas (self : t) (ventas : list Venta) : M unit :=
  json_dump (archivo self) (ventas_json ventas).

(** [ahora] is the text that [datetime.now().strftime(...)] gives when
    the sale is made.  The method changes the product inside the list of
    its caller; it returns that list as the caller then has it. *)
Definition registrar_venta (self : t) (producto_id' : pyval) (cantidad' : Z)
    (productos : list Producto) (productos_manager : ProductoManager.t)
    (ahora : string) : M (list Producto) :=
  match list_find (λ producto, Is_true (Py.eq (id producto) producto_id')) productos with
  | Some (i, producto) =>
      suficiente <- lift (Py.ge_int (stock producto) cantidad') ;;
      if suficiente : bool then
        stock' <- lift (Py.sub_int (stock producto) cantidad') ;;
        let producto := set_stock producto stock' in
        let productos := <[i := producto]> productos in
        total' <- lift (Py.mul_int (precio producto) cantidad') ;;
        let nueva_venta := mkVenta producto_id' (PInt cantidad') (PStr ahora) total' in
        ventas <- cargar_ventas self ;;
        guardar_ventas self (ventas ++ [nueva_venta]) ;;
        ProductoManager.guardar_productos productos_manager productos ;;
        lift (Py.format_2f total') ;;
        print (VentaRegistrada total') ;;
        ret productos
      else
        print (Texto "ERROR: Stock insuficiente.") ;;
        ret productos
  | None =>
      print (Texto "ERROR: No se encontró un producto con ese ID.") ;;
      ret productos
  end.

End VentaManager.

(** ** Sistema *)

Module Sistema.

Record t : Type := mk {
  productos_manager : ProductoManager.t;
  venta_manager : VentaManager.t
}.

(** [Sistema()] *)
Definition new : t :=
  mk (ProductoManager.new "productos.txt") (VentaManager.new "ventas.txt").

(** The arguments of the methods below are the lines that [input]
    reads, in the order the method asks for them; where the method
    converts a line with [float] or [int], the argument is the number
    the conversion gave. *)
Definition registrar_producto (self : t) (id' nombre' : string) (precio' : float)
    (categoria' : string) (stock' : Z) : M unit :=
  let nuevo_producto :=
    mkProducto (PStr id') (PStr nombre') (PFloat precio') (PStr categoria')
               (PInt stock') None in
  ProductoManager.registrar_producto (productos_manager self) nuevo_producto.

Definition actualizar_producto (self : t)
    (id' nombre' precio' categoria' stock' : string) : M unit :=
  ProductoManager.actualizar_producto (productos_manager self)
    (PStr id') (PStr nombre') (PStr precio') (PStr categoria') (PStr stock').

Definition eliminar_producto (self : t) (id' : string) : M unit :=
  ProductoManager.eliminar_producto (productos_manager self) (PStr id').

Definition registrar_venta (self : t) (producto_id' : string) (cantidad' : Z)
    (ahora : string) : M unit :=
  productos <- ProductoManager.cargar_productos (productos_manager self) ;;
  VentaManager.registrar_venta (venta_manager self) (PStr producto_id') cantidad'
    productos (productos_manager self) ahora ;;
  ret tt.

End Sistema.

(** ** The stored collections and their invariants *)

(** What a store holds: what its load method returns. *)
Definition stored_productos (pm : ProductoManager.t) (w : world) : result (list Producto) :=
  (ProductoManager.cargar_productos pm w).1.

Definition stored_ventas (vm : VentaManager.t) (w : world) : result (list Venta) :=
  (VentaManager.cargar_ventas vm w).1.

(** The program tells identifiers apart with [==]. *)
Definition mismo_id (a b : pyval) : Prop := Py.eq a b = true.

(** No identifier of the list equals a later one. *)
Fixpoint distintos (ids : list pyval) : Prop :=
  match ids with
  | [] => True
  | x :: ids' => Forall (λ y, Py.eq x y = false) ids' ∧ distintos ids'
  end.

Definition ids_distintos (productos : list Producto) : Prop :=
  distintos (id <$> productos).

(** The stock is an int, as the dataclass declares it, and not negative. *)
Definition stock_no_negativo (p : Producto) : Prop :=
  match stock p with
  | PInt z => 0 ≤ z
  | _ => False
  end.

Definition stocks_no_negativos (productos : list Producto) : Prop :=
  Forall stock_no_negativo productos.

(** An operation keeps an invariant of the stored products: run on a
    store that holds a collection with the invariant, it leaves a store
    that holds a collection with the invariant. *)
Definition preserva (pm : ProductoManager.t) (inv : list Producto → Prop)
    (op : M unit) : Prop :=
  ∀ (w : world) (l : list Producto),
    stored_productos pm w = Ok l → inv l →
    ∃ l', stored_productos pm (op w).2 = Ok l' ∧ inv l'.

(** The first product of the list with the identifier asked for, as the
    loops of the program find it: nothing before it has the identifier. *)
Definition primero_con_id (id' : pyval) (productos : list Producto)
    (i : nat) (p : Producto) : Prop :=
  productos !! i = Some p ∧ mismo_id (id p) id'
  ∧ ∀ j q, productos !! j = Some q → (j < i)%nat → Py.eq (id q) id' = false.

(** ** Sample data *)

Definition P1 : Producto :=
  mkProducto (PStr "P1") (PStr "Teclado") (PFloat 10%float) (PStr "Oficina") (PInt 5) None.

Definition P2 : Producto :=
  mkProducto (PStr "P2") (PStr "Cable") (PFloat 2.5%float) (PStr "Oficina") (PInt 40)
             (Some (PFloat 0.25%float)).

(** A world whose products file holds [productos], with no sales file
    and nothing printed yet. *)
Definition world_con (productos : list Producto) : world :=
  World {[ "productos.txt" := Json (productos_json productos) ]} [].

Definition VentaP2 : Venta :=
  mkVenta (PStr "P2") (PInt 4) (PStr "2024-04-30 09:15:00") (PFloat 10%float).

(** A world whose two files hold [productos] and [ventas]. *)
Definition world_con_ventas (productos : list Producto) (ventas : list Venta) : world :=
  World (<[ "ventas.txt" := Json (ventas_json ventas) ]>
           {[ "productos.txt" := Json (productos_json productos) ]}) [].

(** ** Producto.actualizar_stock *)

(** The method changes [self]; the result is [self] as it is after the
    call, with the value returned.  The test [cantidad <= self.stock] with
    an int on the left is the test [self.stock >= cantidad]: the same
    comparison for a number, the same [TypeError] for the other values. *)
Definition actualizar_stock (self : Producto) (cantidad' : Z) : result (Producto * bool) :=
  result_bind (Py.ge_int (stock self) cantidad') (λ cabe : bool,
    if cabe then
      result_bind (Py.sub_int (stock self) cantidad') (λ stock',
        Ok (set_stock self stock', true))
    else Ok (self, false)).

(** A product with its stock blanked out: the part of it that a sale
    has no business with. *)
Definition sin_stock (p : Producto) : Producto := set_stock p PNone.

(** * Properties *)

(** ** The operations of Python on sample values *)

Example float_of_int_3 : Py.float_of_int 3 = Ok 3%float.
Proof. reflexivity. Qed.

Example float_of_int_fuera_de_rango : Py.float_of_int (- 2 ^ 1024) = Raise OverflowError.
Proof. reflexivity. Qed.

Example eq_int_float : Py.eq (PInt 1) (PFloat 1%float) = true.
Proof. reflexivity. Qed.

Example eq_nan : Py.eq (PFloat nan) (PFloat nan) = false.
Proof. reflexivity. Qed.

Example ge_float_int : Py.ge_int (PFloat 2.5%float) 3 = Ok false.
Proof. reflexivity. Qed.

Example ge_str_int : Py.ge_int (PStr "5") 3 = Raise TypeError.
Proof. reflexivity. Qed.

Example mul_float_int : Py.mul_int (PFloat 10%float) 3 = Ok (PFloat 30%float).
Proof. reflexivity. Qed.

Example mul_str_int : Py.mul_int (PStr "12.5") 3 = Ok (PStr "12.512.512.5").
Proof. reflexivity. Qed.

(** A file of well-formed JSON that is not a list of records of the
    class: the load raises, since only a decoding error is caught. *)
Example cargar_productos_json_ajeno :
  ProductoManager.cargar_productos (ProductoManager.new "productos.txt")
    (World {[ "productos.txt" := Json (PList [PInt 1]) ]} [])
  = (Raise TypeError, World {[ "productos.txt" := Json (PList [PInt 1]) ]} []).
Proof. reflexivity. Qed.

(** A quantity that [float] cannot hold: the sale raises after the stock
    was lowered in memory and before any file is written. *)
Example registrar_venta_cantidad_enorme :
  VentaManager.registrar_venta (VentaManager.new "ventas.txt") (PStr "P1") (- 2 ^ 1024)
    [P1] (ProductoManager.new "productos.txt") "2024-05-01 10:00:00" (world_con [P1])
  = (Raise OverflowError, world_con [P1]).
Proof. reflexivity. Qed.

(** On identifiers that are strs, [==] is the identity of the strings. *)
Lemma eq_PStr (s t : string) : Py.eq (PStr s) (PStr t) = true ↔ s = t.
Proof. simpl. apply String.eqb_eq. Qed.

Lemma distintos_PStr (ids : list string) : distintos (PStr <$> ids) ↔ NoDup ids.
Proof.
  induction ids as [|x ids IH]; simpl.
  - split; [intros _; constructor | done].
  - rewrite NoDup_cons, IH, Forall_fmap, Forall_forall.
    split; intros [Hx Hnd]; (split; [|assumption]).
    + intros Hin. specialize (Hx x Hin). simpl in Hx.
      rewrite String.eqb_refl in Hx. discriminate.
    + intros y Hy. simpl. apply String.eqb_neq. intros ->. contradiction.
Qed.

Lemma result_mapM_map {A B} (f : A → result B) (g : B → A) (l : list B) :
  (∀ x, f (g x) = Ok x) → result_mapM f (map g l) = Ok l.
Proof.
  intros Hfg. induction l as [|x l IH]; simpl.
  - reflexivity.
  - rewrite Hfg, IH. reflexivity.
Qed.

Lemma Producto_desde_json_dict (p : Producto) :
  ProductoManager.desde_json (PDict (Producto_dict p)) = Ok p.
Proof. destruct p as [a b c e f [g|]]; reflexivity. Qed.

Lemma Venta_desde_json_dict (v : Venta) :
  VentaManager.desde_json (PDict (Venta_dict v)) = Ok v.
Proof. destruct v; reflexivity. Qed.

Lemma cargar_productos_files (pm : ProductoManager.t) (w : world) :
  files (ProductoManager.cargar_productos pm w).2 = files w.
Proof.
  unfold ProductoManager.cargar_productos, bind, read_file, lift, print, ret.
  destruct (files w !! ProductoManager.archivo pm) as [[|v]|]; simpl; try reflexivity.
  destruct (Py.iter v); reflexivity.
Qed.

Lemma cargar_ventas_files (vm : VentaManager.t) (w : world) :
  files (VentaManager.cargar_ventas vm w).2 = files w.
Proof.
  unfold VentaManager.cargar_ventas, bind, read_file, lift, print, ret.
  destruct (files w !! VentaManager.archivo vm) as [[|v]|]; simpl; try reflexivity.
  destruct (Py.iter v); reflexivity.
Qed.

(** What is stored depends on the files alone, not on the console. *)
Lemma stored_productos_ext (pm : ProductoManager.t) (w w' : world) :
  files w !! ProductoManager.archivo pm = files w' !! ProductoManager.archivo pm →
  stored_productos pm w = stored_productos pm w'.
Proof.
  intros H. unfold stored_productos, ProductoManager.cargar_productos, bind, read_file.
  rewrite H. destruct (files w' !! ProductoManager.archivo pm) as [[|v]|]; simpl; try reflexivity.
  unfold lift. destruct (Py.iter v); reflexivity.
Qed.

Lemma stored_ventas_ext (vm : VentaManager.t) (w w' : world) :
  files w !! VentaManager.archivo vm = files w' !! VentaManager.archivo vm →
  stored_ventas vm w = stored_ventas vm w'.
Proof.
  intros H. unfold stored_ventas, VentaManager.cargar_ventas, bind, read_file.
  rewrite H. destruct (files w' !! VentaManager.archivo vm) as [[|v]|]; simpl; try reflexivity.
  unfold lift. destruct (Py.iter v); reflexivity.
Qed.

Lemma stored_productos_json (pm : ProductoManager.t) (w : world) (l : list Producto) :
  files w !! ProductoManager.archivo pm = Some (Json (productos_json l)) →
  ProductoManager.cargar_productos pm w = (Ok l, w).
Proof.
  intros H. unfold ProductoManager.cargar_productos, bind, read_file. rewrite H.
  simpl. unfold lift.
  rewrite (result_mapM_map ProductoManager.desde_json) by apply Producto_desde_json_dict.
  reflexivity.
Qed.

Lemma stored_ventas_json (vm : VentaManager.t) (w : world) (l : list Venta) :
  files w !! VentaManager.archivo vm = Some (Json (ventas_json l)) →
  VentaManager.cargar_ventas vm w = (Ok l, w).
Proof.
  intros H. unfold VentaManager.cargar_ventas, bind, read_file. rewrite H.
  simpl. unfold lift.
  rewrite (result_mapM_map VentaManager.desde_json) by apply Venta_desde_json_dict.
  reflexivity.
Qed.

(** ** Save, then load *)

(** C7: saving a collection of products (plain or with a discount) and
    loading it again returns the collection that was saved, record for
    record and field for field, and the same holds for a collection of
    sales. *)
Theorem guardar_cargar_roundtrip
    (pm : ProductoManager.t) (vm : VentaManager.t)
    (productos : list Producto) (ventas : list Venta) (w : world) :
  (ProductoManager.guardar_productos pm productos ;;
   ProductoManager.cargar_productos pm) w
  = (Ok productos,
     World (<[ProductoManager.archivo pm := Json (productos_json productos)]> (files w))
           (stdout w))
  ∧ (VentaManager.guardar_ventas vm ventas ;;
     VentaManager.cargar_ventas vm) w
  = (Ok ventas,
     World (<[VentaManager.archivo vm := Json (ventas_json ventas)]> (files w))
           (stdout w)).
Proof.
  split.
  - unfold bind, ProductoManager.guardar_productos, json_dump.
    apply stored_productos_json. simpl. apply lookup_insert_eq.
  - unfold bind, VentaManager.guardar_ventas, json_dump.
    apply stored_ventas_json. simpl. apply lookup_insert_eq.
Qed.

(** ** Loading a missing or an undecodable file *)



(** ** Finding a product by its identifier *)

Lemma list_find_primero (id' : pyval) (productos : list Producto) (i : nat) (p : Producto) :
  list_find (λ q, Is_true (Py.eq (id q) id')) productos = Some (i, p)
  ↔ primero_con_id id' productos i p.
Proof.
  unfold primero_con_id, mismo_id. rewrite list_find_Some, Is_true_true.
  split; intros (Hi & Hp & Hlt); repeat split; try assumption.
  - intros j q Hj Hji. apply Is_true_false_1. eauto.
  - intros j q Hj Hji. apply Is_true_false_2. eauto.
Qed.

Lemma list_find_ausente (id' : pyval) (productos : list Producto) :
  list_find (λ q, Is_true (Py.eq (id q) id')) productos = None
  ↔ ∀ q, q ∈ productos → Py.eq (id q) id' = false.
Proof.
  rewrite list_find_None, Forall_forall.
  split; intros H q Hq.
  - apply Is_true_false_1. auto.
  - apply Is_true_false_2. auto.
Qed.

Lemma primero_con_id_middle (id' : pyval) (l1 l2 : list Producto) (p : Producto) :
  (∀ q, q ∈ l1 → Py.eq (id q) id' = false) → mismo_id (id p) id' →
  primero_con_id id' (l1 ++ p :: l2) (length l1) p.
Proof.
  intros Hl1 Hp. repeat split.
  - apply list_lookup_middle. reflexivity.
  - assumption.
  - intros j q Hj Hlt. apply Hl1. rewrite lookup_app_l in Hj by assumption.
    apply list_elem_of_lookup. eauto.
Qed.

Lemma cargar_productos_no_vacio (pm : ProductoManager.t) (w : world)
    (p : Producto) (l : list Producto) :
  stored_productos pm w = Ok (p :: l) →
  ProductoManager.cargar_productos pm w = (Ok (p :: l), w).
Proof.
  unfold stored_productos, ProductoManager.cargar_productos, bind, read_file.
  destruct (files w !! ProductoManager.archivo pm) as [[|v]|]; simpl; try discriminate.
  unfold lift. destruct (Py.iter v); simpl; [|discriminate].
  intros ->. reflexivity.
Qed.

Lemma cargar_productos_stored (pm : ProductoManager.t) (w : world) :
  ProductoManager.cargar_productos pm w
  = (stored_productos pm w,
     World (files w) (stdout (ProductoManager.cargar_productos pm w).2)).
Proof.
  unfold stored_productos. rewrite <- (cargar_productos_files pm w).
  destruct (ProductoManager.cargar_productos pm w) as [r [fs out]]. reflexivity.
Qed.

(** ** Operations that are refused *)

(** C5: when the stored collection has a product with the identifier of
    the new product, registering prints the error line and returns with
    every file as it was. *)
Theorem registrar_producto_duplicado
    (pm : ProductoManager.t) (nuevo_producto : Producto) (w : world)
    (productos : list Producto) :
  stored_productos pm w = Ok productos →
  (∃ p, p ∈ productos ∧ mismo_id (id p) (id nuevo_producto)) →
  ProductoManager.registrar_producto pm nuevo_producto w
  = (Ok tt, World (files w)
                  (stdout w ++ [Texto "ERROR: Ya existe un producto con ese ID."])).
Proof.
  intros Hst (p & Hin & Hid).
  assert (Hex : existsb (λ producto, Py.eq (id producto) (id nuevo_producto)) productos = true).
  { apply existsb_exists. exists p. split; [by apply list_elem_of_In | exact Hid]. }
  destruct productos as [|q l]; [by apply elem_of_nil in Hin|].
  unfold ProductoManager.registrar_producto, bind.
  rewrite (cargar_productos_no_vacio _ _ _ _ Hst), Hex. reflexivity.
Qed.

(** C6: when no stored product has the identifier asked for, updating
    prints the error line and returns with every file as it was, and so
    does deleting. *)
Theorem actualizar_eliminar_id_ausente
    (pm : ProductoManager.t) (id' nombre' precio' categoria' stock' : pyval)
    (w : world) (productos : list Producto) :
  stored_productos pm w = Ok productos →
  (∀ p, p ∈ productos → Py.eq (id p) id' = false) →
  ProductoManager.actualizar_producto pm id' nombre' precio' categoria' stock' w
  = (Ok tt, World (files w)
                  (stdout (ProductoManager.cargar_productos pm w).2
                   ++ [Texto "ERROR: No se encontró un producto con ese ID."]))
  ∧ ProductoManager.eliminar_producto pm id' w
  = (Ok tt, World (files w)
                  (stdout (ProductoManager.cargar_productos pm w).2
                   ++ [Texto "ERROR: No se encontró un producto con ese ID."])).
Proof.
  intros Hst Habs. apply list_find_ausente in Habs.
  unfold ProductoManager.actualizar_producto, ProductoManager.eliminar_producto, bind.
  rewrite cargar_productos_stored, Hst, Habs. split; reflexivity.
Qed.

(** ** Deleting *)

(** C10: when the stored collection is [l1 ++ p :: l2], with [p] the
    first product that has the identifier, deleting stores [l1 ++ l2]:
    only [p] is removed, and every later product with the identifier,
    being in [l2], stays. *)
Theorem eliminar_producto_primero
    (pm : ProductoManager.t) (id' : pyval) (w : world)
    (l1 l2 : list Producto) (p : Producto) :
  stored_productos pm w = Ok (l1 ++ p :: l2) →
  (∀ q, q ∈ l1 → Py.eq (id q) id' = false) →
  mismo_id (id p) id' →
  (∃ q, q ∈ l2 ∧ mismo_id (id q) id') →
  (ProductoManager.eliminar_producto pm id' w).1 = Ok tt
  ∧ stored_productos pm (ProductoManager.eliminar_producto pm id' w).2 = Ok (l1 ++ l2)
  ∧ ∀ q, q ∈ l2 → q ∈ l1 ++ l2.
Proof.
  intros Hst Hl1 Hp _.
  pose proof (primero_con_id_middle id' l1 l2 p Hl1 Hp) as Hfind.
  apply list_find_primero in Hfind.
  unfold ProductoManager.eliminar_producto, bind.
  rewrite cargar_productos_stored, Hst, Hfind. simpl.
  rewrite delete_middle. repeat split.
  - unfold stored_productos. erewrite stored_productos_json; [reflexivity|].
    simpl. apply lookup_insert_eq.
  - intros q Hq. apply elem_of_app. by right.
Qed.

(** ** What an operation leaves in the products file *)

Lemma cargar_ventas_stored (vm : VentaManager.t) (w : world) :
  VentaManager.cargar_ventas vm w
  = (stored_ventas vm w,
     World (files w) (stdout (VentaManager.cargar_ventas vm w).2)).
Proof.
  unfold stored_ventas. rewrite <- (cargar_ventas_files vm w).
  destruct (VentaManager.cargar_ventas vm w) as [r [fs out]]. reflexivity.
Qed.

Lemma stored_productos_dump (pm : ProductoManager.t) (fs : gmap string content)
    (out : list line) (l : list Producto) :
  stored_productos pm
    (World (<[ProductoManager.archivo pm := Json (productos_json l)]> fs) out) = Ok l.
Proof.
  unfold stored_productos. erewrite stored_productos_json; [reflexivity|].
  simpl. apply lookup_insert_eq.
Qed.

Lemma stored_productos_same_files (pm : ProductoManager.t) (w w' : world) :
  files w' = files w → stored_productos pm w' = stored_productos pm w.
Proof. intros H. apply stored_productos_ext. by rewrite H. Qed.

(** A sale either writes no file, or it found a product, had enough
    stock, computed the new stock and the total, loaded the sales, and
    wrote both files. *)
Lemma registrar_venta_outcome
    (vm : VentaManager.t) (producto_id' : pyval) (cantidad' : Z)
    (productos : list Producto) (pm : ProductoManager.t) (ahora : string) (w : world) :
  files (VentaManager.registrar_venta vm producto_id' cantidad' productos pm ahora w).2
  = files w
  ∨ ∃ i p stock' total' ventas,
      primero_con_id producto_id' productos i p
      ∧ Py.ge_int (stock p) cantidad' = Ok true
      ∧ Py.sub_int (stock p) cantidad' = Ok stock'
      ∧ Py.mul_int (precio p) cantidad' = Ok total'
      ∧ stored_ventas vm w = Ok ventas
      ∧ files (VentaManager.registrar_venta vm producto_id' cantidad' productos pm ahora w).2
        = <[ProductoManager.archivo pm :=
              Json (productos_json (<[i := set_stock p stock']> productos))]>
            (<[VentaManager.archivo vm :=
                 Json (ventas_json
                         (ventas ++ [mkVenta producto_id' (PInt cantidad') (PStr ahora) total']))]>
               (files w)).
Proof.
  unfold VentaManager.registrar_venta.
  destruct (list_find _ productos) as [[i p]|] eqn:Hfind; [|by left].
  apply list_find_primero in Hfind.
  unfold bind, lift.
  destruct (Py.ge_int (stock p) cantidad') as [[|]|] eqn:Hge; [|by left|by left].
  destruct (Py.sub_int (stock p) cantidad') as [stock'|] eqn:Hsub; [|by left].
  change (precio (set_stock p stock')) with (precio p).
  destruct (Py.mul_int (precio p) cantidad') as [total'|] eqn:Hmul; [|by left].
  rewrite cargar_ventas_stored.
  destruct (stored_ventas vm w) as [ventas|] eqn:Hven; [|by left].
  right. exists i, p, stock', total', ventas.
  do 5 (split; [first [assumption | reflexivity]|]).
  unfold VentaManager.guardar_ventas, ProductoManager.guardar_productos,
    json_dump, print, ret. simpl.
  destruct (Py.format_2f total'); reflexivity.
Qed.

Lemma bind_ret_world {A} (c : M A) (w : world) :
  ((c ;; ret tt) w).2 = (c w).2.
Proof. unfold bind, ret. destruct (c w) as [[a|e] w']; reflexivity. Qed.

Lemma actualizar_campos_id (p : Producto) (nombre' precio' categoria' stock' : pyval) :
  id (ProductoManager.actualizar_campos p nombre' precio' categoria' stock') = id p.
Proof.
  unfold ProductoManager.actualizar_campos.
  destruct (Py.truth nombre'), (Py.truth precio'), (Py.truth categoria'),
    (Py.is_not_None stock'); reflexivity.
Qed.

Lemma fmap_id_insert (l : list Producto) (i : nat) (p p' : Producto) :
  l !! i = Some p → id p' = id p → id <$> <[i := p']> l = id <$> l.
Proof.
  intros Hi Hid. rewrite list_fmap_insert, Hid. apply list_insert_id.
  by rewrite list_lookup_fmap, Hi.
Qed.

Lemma distintos_snoc (ids : list pyval) (x : pyval) :
  distintos ids → Forall (λ y, Py.eq y x = false) ids → distintos (ids ++ [x]).
Proof.
  induction ids as [|y ids IH]; simpl.
  - intros _ _. split; [constructor | exact I].
  - intros [Hy Hd] Hall. apply Forall_cons in Hall as [Hyx Hall]. split.
    + apply Forall_app. split; [assumption|]. by apply Forall_singleton.
    + by apply IH.
Qed.

Lemma distintos_delete (ids : list pyval) (i : nat) :
  distintos ids → distintos (delete i ids).
Proof.
  revert i. induction ids as [|y ids IH]; intros i; simpl.
  - intros _. by destruct i.
  - intros [Hy Hd]. destruct i as [|i]; simpl.
    + assumption.
    + split; [by apply Forall_delete | by apply IH].
Qed.

Lemma existsb_false_Forall {A} (f : A → bool) (l : list A) :
  existsb f l = false → Forall (λ x, f x = false) l.
Proof.
  induction l as [|x l IH]; simpl; intros H.
  - constructor.
  - apply orb_false_iff in H as [Hx Hl]. constructor; [assumption | by apply IH].
Qed.

(** What each operation stores, as a function of what was stored. *)
Lemma registrar_producto_stored
    (pm : ProductoManager.t) (nuevo_producto : Producto) (w : world) (l : list Producto) :
  stored_productos pm w = Ok l →
  stored_productos pm (ProductoManager.registrar_producto pm nuevo_producto w).2
  = Ok (if existsb (λ producto, Py.eq (id producto) (id nuevo_producto)) l
        then l else l ++ [nuevo_producto]).
Proof.
  intros Hst. unfold ProductoManager.registrar_producto, bind.
  rewrite cargar_productos_stored, Hst.
  destruct (existsb _ l).
  - rewrite <- Hst. by apply stored_productos_same_files.
  - apply stored_productos_dump.
Qed.

Lemma actualizar_producto_stored
    (pm : ProductoManager.t) (id' nombre' precio' categoria' stock' : pyval)
    (w : world) (l : list Producto) :
  stored_productos pm w = Ok l →
  stored_productos pm
    (ProductoManager.actualizar_producto pm id' nombre' precio' categoria' stock' w).2
  = Ok (match list_find (λ q, Is_true (Py.eq (id q) id')) l with
        | Some (i, p) =>
            <[i := ProductoManager.actualizar_campos p nombre' precio' categoria' stock']> l
        | None => l
        end).
Proof.
  intros Hst. unfold ProductoManager.actualizar_producto, bind.
  rewrite cargar_productos_stored, Hst.
  destruct (list_find _ l) as [[i p]|].
  - apply stored_productos_dump.
  - rewrite <- Hst. by apply stored_productos_same_files.
Qed.

Lemma eliminar_producto_stored
    (pm : ProductoManager.t) (id' : pyval) (w : world) (l : list Producto) :
  stored_productos pm w = Ok l →
  stored_productos pm (ProductoManager.eliminar_producto pm id' w).2
  = Ok (match list_find (λ q, Is_true (Py.eq (id q) id')) l with
        | Some (i, _) => delete i l
        | None => l
        end).
Proof.
  intros Hst. unfold ProductoManager.eliminar_producto, bind.
  rewrite cargar_productos_stored, Hst.
  destruct (list_find _ l) as [[i p]|].
  - apply stored_productos_dump.
  - rewrite <- Hst. by apply stored_productos_same_files.
Qed.

Lemma Sistema_registrar_venta_stored
    (s : Sistema.t) (producto_id' : string) (cantidad' : Z) (ahora : string)
    (w : world) (l : list Producto) :
  stored_productos (Sistema.productos_manager s) w = Ok l →
  stored_productos (Sistema.productos_manager s)
    (Sistema.registrar_venta s producto_id' cantidad' ahora w).2 = Ok l
  ∨ ∃ i p stock',
      primero_con_id (PStr producto_id') l i p
      ∧ Py.ge_int (stock p) cantidad' = Ok true
      ∧ Py.sub_int (stock p) cantidad' = Ok stock'
      ∧ stored_productos (Sistema.productos_manager s)
          (Sistema.registrar_venta s producto_id' cantidad' ahora w).2
        = Ok (<[i := set_stock p stock']> l).
Proof.
  intros Hst.
  set (w1 := World (files w)
               (stdout (ProductoManager.cargar_productos (Sistema.productos_manager s) w).2)).
  assert (Heq : (Sistema.registrar_venta s producto_id' cantidad' ahora w).2
                = (VentaManager.registrar_venta (Sistema.venta_manager s) (PStr producto_id')
                     cantidad' l (Sistema.productos_manager s) ahora w1).2).
  { unfold Sistema.registrar_venta. unfold bind at 1.
    rewrite cargar_productos_stored, Hst. apply bind_ret_world. }
  rewrite Heq. clear Heq.
  destruct (registrar_venta_outcome (Sistema.venta_manager s) (PStr producto_id')
              cantidad' l (Sistema.productos_manager s) ahora w1)
    as [Hsame | (i & p & stock' & total' & ventas & Hfind & Hge & Hsub & _ & _ & Hfiles)].
  - left. rewrite <- Hst. by apply stored_productos_same_files.
  - right. exists i, p, stock'. do 3 (split; [assumption|]).
    destruct (VentaManager.registrar_venta _ _ _ _ _ _ _).2 as [fs out].
    simpl in Hfiles. subst fs. apply stored_productos_dump.
Qed.

(** ** The identifiers stay distinct *)

(** C8: from a stored collection whose identifiers are pairwise
    distinct, registering a product, updating one, deleting one and
    recording a sale each leave a stored collection whose identifiers are
    pairwise distinct. *)
Theorem ids_distintos_preservados (s : Sistema.t) :
  let pm := Sistema.productos_manager s in
  (∀ nuevo_producto,
     preserva pm ids_distintos (ProductoManager.registrar_producto pm nuevo_producto))
  ∧ (∀ id' nombre' precio' categoria' stock',
       preserva pm ids_distintos
         (ProductoManager.actualizar_producto pm id' nombre' precio' categoria' stock'))
  ∧ (∀ id', preserva pm ids_distintos (ProductoManager.eliminar_producto pm id'))
  ∧ (∀ producto_id' cantidad' ahora,
       preserva pm ids_distintos (Sistema.registrar_venta s producto_id' cantidad' ahora)).
Proof.
  intros pm. unfold preserva, ids_distintos. repeat split.
  - intros nuevo w l Hst Hinv. eexists. split; [by apply registrar_producto_stored|].
    destruct (existsb _ l) eqn:Hex; [assumption|].
    rewrite fmap_app. apply distintos_snoc; [assumption|].
    apply Forall_fmap. by apply existsb_false_Forall in Hex.
  - intros id' n pr c st w l Hst Hinv. eexists.
    split; [by apply actualizar_producto_stored|].
    destruct (list_find _ l) as [[i p]|] eqn:Hfind; [|assumption].
    apply list_find_primero in Hfind as (Hi & _).
    by rewrite (fmap_id_insert l i p) by (assumption || apply actualizar_campos_id).
  - intros id' w l Hst Hinv. eexists. split; [by apply eliminar_producto_stored|].
    destruct (list_find _ l) as [[i p]|]; [|assumption].
    rewrite list_fmap_delete. by apply distintos_delete.
  - intros pid c ahora w l Hst Hinv.
    destruct (Sistema_registrar_venta_stored s pid c ahora w l Hst)
      as [Hsame | (i & p & stock' & (Hi & _) & _ & _ & Hnew)].
    + by exists l.
    + eexists. split; [exact Hnew|].
      by rewrite (fmap_id_insert l i p).
Qed.

(** ** The stocks stay non-negative *)

Lemma actualizar_campos_stock (p : Producto) (nombre' precio' categoria' stock' : pyval) :
  stock (ProductoManager.actualizar_campos p nombre' precio' categoria' stock')
  = if Py.is_not_None stock' then stock' else stock p.
Proof.
  unfold ProductoManager.actualizar_campos.
  destruct (Py.truth nombre'), (Py.truth precio'), (Py.truth categoria'),
    (Py.is_not_None stock'); reflexivity.
Qed.

(** A sale that goes through leaves an int stock that is not negative. *)
Lemma venta_stock_no_negativo (p : Producto) (cantidad' : Z) (stock' : pyval) :
  stock_no_negativo p →
  Py.ge_int (stock p) cantidad' = Ok true →
  Py.sub_int (stock p) cantidad' = Ok stock' →
  stock_no_negativo (set_stock p stock').
Proof.
  unfold stock_no_negativo. simpl.
  destruct (stock p) as [| | z | | | |]; try contradiction.
  simpl. intros Hz [= Hge] [= <-]. lia.
Qed.

(** Registering stores the stock it is given without looking at it: a
    product registered with stock [-1] is stored with stock [-1]. *)
Lemma registrar_producto_stock_negativo :
  let s := Sistema.new in
  let pm := Sistema.productos_manager s in
  let w := World ∅ [] in
  let nuevo := mkProducto (PStr "P9") (PStr "Lote") (PFloat 1%float) (PStr "Varios")
                          (PInt (-1)) None in
  stored_productos pm w = Ok []
  ∧ stocks_no_negativos []
  ∧ stored_productos pm (Sistema.registrar_producto s "P9" "Lote" 1%float "Varios" (-1) w).2
    = Ok [nuevo]
  ∧ ¬ stocks_no_negativos [nuevo]
  ∧ ¬ preserva pm stocks_no_negativos
        (Sistema.registrar_producto s "P9" "Lote" 1%float "Varios" (-1)).
Proof.
  intros s pm w nuevo.
  assert (Hneg : ¬ stocks_no_negativos [nuevo]).
  { intros H. apply Forall_cons in H as [H _]. unfold stock_no_negativo in H. simpl in H. lia. }
  assert (Hafter : stored_productos pm
            (Sistema.registrar_producto s "P9" "Lote" 1%float "Varios" (-1) w).2 = Ok [nuevo])
    by reflexivity.
  split; [reflexivity|]. split; [constructor|]. split; [exact Hafter|]. split; [exact Hneg|].
  intros Hpres. destruct (Hpres w [] eq_refl (List.Forall_nil _)) as (l' & Hl' & Hinv).
  rewrite Hafter in Hl'. injection Hl' as <-. contradiction.
Qed.

(** C3, as the code has it: deleting a product and recording a sale keep
    every stored stock a non-negative int; registering keeps them so
    when the new product's stock is a non-negative int, and updating
    when the stock argument is left out or is a non-negative int.  The
    two store the stock they are given without a check. *)
Theorem stocks_no_negativos_preservados (s : Sistema.t) :
  let pm := Sistema.productos_manager s in
  (∀ nuevo_producto,
     stock_no_negativo nuevo_producto →
     preserva pm stocks_no_negativos (ProductoManager.registrar_producto pm nuevo_producto))
  ∧ (∀ id' nombre' precio' categoria' stock',
       stock' = PNone ∨ (∃ z, stock' = PInt z ∧ 0 ≤ z) →
       preserva pm stocks_no_negativos
         (ProductoManager.actualizar_producto pm id' nombre' precio' categoria' stock'))
  ∧ (∀ id', preserva pm stocks_no_negativos (ProductoManager.eliminar_producto pm id'))
  ∧ (∀ producto_id' cantidad' ahora,
       preserva pm stocks_no_negativos
         (Sistema.registrar_venta s producto_id' cantidad' ahora)).
Proof.
  intros pm. unfold preserva, stocks_no_negativos. repeat split.
  - intros nuevo Hnuevo w l Hst Hinv. eexists.
    split; [by apply registrar_producto_stored|].
    destruct (existsb _ l); [assumption|].
    apply Forall_app. split; [assumption|]. by apply Forall_singleton.
  - intros id' n pr c st Harg w l Hst Hinv. eexists.
    split; [by apply actualizar_producto_stored|].
    destruct (list_find _ l) as [[i p]|] eqn:Hfind; [|assumption].
    apply list_find_primero in Hfind as (Hi & _).
    apply Forall_insert; [assumption|].
    pose proof (Forall_lookup_1 _ _ _ _ Hinv Hi) as Hp.
    unfold stock_no_negativo in *. rewrite actualizar_campos_stock.
    destruct Harg as [-> | (z & -> & Hz)]; simpl; assumption.
  - intros id' w l Hst Hinv. eexists. split; [by apply eliminar_producto_stored|].
    destruct (list_find _ l) as [[i p]|]; [|assumption].
    by apply Forall_delete.
  - intros pid c ahora w l Hst Hinv.
    destruct (Sistema_registrar_venta_stored s pid c ahora w l Hst)
      as [Hsame | (i & p & stock' & (Hi & _) & Hge & Hsub & Hnew)].
    + by exists l.
    + eexists. split; [exact Hnew|].
      apply Forall_insert; [assumption|].
      apply (venta_stock_no_negativo p c); try assumption.
      exact (Forall_lookup_1 _ _ _ _ Hinv Hi).
Qed.

(** ** Recording a sale *)

(** C2: when no product of the list has the identifier, or when the
    product the lookup finds has less stock than the quantity asked for,
    the sale prints its error line and returns: the list is as it was and
    no file is written. *)
Theorem registrar_venta_rechazada
    (vm : VentaManager.t) (producto_id' : pyval) (cantidad' : Z)
    (productos : list Producto) (pm : ProductoManager.t) (ahora : string) (w : world) :
  ((∀ p, p ∈ productos → Py.eq (id p) producto_id' = false) →
   VentaManager.registrar_venta vm producto_id' cantidad' productos pm ahora w
   = (Ok productos,
      World (files w)
            (stdout w ++ [Texto "ERROR: No se encontró un producto con ese ID."])))
  ∧ (∀ i p z,
       primero_con_id producto_id' productos i p → stock p = PInt z → z < cantidad' →
       VentaManager.registrar_venta vm producto_id' cantidad' productos pm ahora w
       = (Ok productos,
          World (files w) (stdout w ++ [Texto "ERROR: Stock insuficiente."]))).
Proof.
  unfold VentaManager.registrar_venta. split.
  - intros Habs. apply list_find_ausente in Habs. rewrite Habs. reflexivity.
  - intros i p z Hfind Hstock Hlt. apply list_find_primero in Hfind.
    rewrite Hfind, Hstock. unfold bind, lift. simpl.
    replace (cantidad' <=? z) with false by (symmetry; apply Z.leb_gt; lia).
    reflexivity.
Qed.

(** With two products under one identifier the lookup stops at the
    first: the list has a product "P1" with stock 5, and a sale of 3 is
    refused because the "P1" before it has stock 1. *)
Lemma registrar_venta_id_repetido :
  let vm := Sistema.venta_manager Sistema.new in
  let pm := Sistema.productos_manager Sistema.new in
  let escaso := set_stock P1 (PInt 1) in
  let productos := [escaso; P1] in
  (∃ p, p ∈ productos ∧ id p = PStr "P1" ∧ stock p = PInt 5 ∧ 3 ≤ 5)
  ∧ VentaManager.registrar_venta vm (PStr "P1") 3 productos pm "2024-05-01 10:00:00"
      (world_con productos)
    = (Ok productos,
       World (files (world_con productos)) [Texto "ERROR: Stock insuficiente."]).
Proof.
  intros vm pm escaso productos. split.
  - exists P1. split; [|by repeat split]. apply elem_of_cons. right. apply list_elem_of_here.
  - reflexivity.
Qed.

(** C1, as the code has it: when the first product of the list with the
    identifier has an int stock of at least the quantity and a float
    price, the quantity converts to a float, the sales file loads, and
    the two stores are on different files, the sale returns with that
    product's stock lowered by exactly the quantity and the other
    products as they were, that list is what the products file then
    holds, and the sales file holds the sales it held followed by one new
    record whose total is the price times the quantity. *)
Theorem registrar_venta_valida
    (vm : VentaManager.t) (producto_id' : pyval) (cantidad' : Z)
    (productos : list Producto) (pm : ProductoManager.t) (ahora : string) (w : world)
    (i : nat) (p : Producto) (z : Z) (f g : float) (ventas : list Venta) :
  primero_con_id producto_id' productos i p →
  stock p = PInt z → cantidad' ≤ z →
  precio p = PFloat f → Py.float_of_int cantidad' = Ok g →
  stored_ventas vm w = Ok ventas →
  ProductoManager.archivo pm ≠ VentaManager.archivo vm →
  let productos' := <[i := set_stock p (PInt (z - cantidad'))]> productos in
  let venta := mkVenta producto_id' (PInt cantidad') (PStr ahora) (PFloat (f * g)%float) in
  let r := VentaManager.registrar_venta vm producto_id' cantidad' productos pm ahora w in
  r.1 = Ok productos'
  ∧ stored_productos pm r.2 = Ok productos'
  ∧ stored_ventas vm r.2 = Ok (ventas ++ [venta])
  ∧ stdout r.2 = stdout (VentaManager.cargar_ventas vm w).2
                 ++ [VentaRegistrada (PFloat (f * g)%float)].
Proof.
  intros Hfind Hstock Hle Hprecio Hg Hven Hne productos' venta r.
  assert (Hr : r = (Ok productos',
                    World (<[ProductoManager.archivo pm := Json (productos_json productos')]>
                             (<[VentaManager.archivo vm := Json (ventas_json (ventas ++ [venta]))]>
                                (files w)))
                          (stdout (VentaManager.cargar_ventas vm w).2
                           ++ [VentaRegistrada (PFloat (f * g)%float)]))).
  { subst r. unfold VentaManager.registrar_venta.
    apply list_find_primero in Hfind. rewrite Hfind, Hstock.
    unfold bind, lift. simpl Py.ge_int.
    replace (cantidad' <=? z) with true by (symmetry; apply Z.leb_le; lia).
    simpl Py.sub_int. cbv beta iota.
    change (precio (set_stock p (PInt (z - cantidad')))) with (precio p).
    rewrite Hprecio. simpl Py.mul_int. rewrite Hg. simpl result_bind.
    rewrite cargar_ventas_stored, Hven. reflexivity. }
  rewrite Hr. simpl. repeat split.
  - apply stored_productos_dump.
  - unfold stored_ventas. erewrite stored_ventas_json; [reflexivity|].
    simpl. rewrite lookup_insert_ne by assumption. apply lookup_insert_eq.
Qed.

(** ** Updating from the console *)

(** The controller hands the manager the lines it read, so the stock
    argument is a str and never None: the stock is overwritten with it,
    also when the line is empty. *)
Lemma Sistema_actualizar_producto_campos_vacios
    (s : Sistema.t) (id' : string) (w : world) (l : list Producto)
    (i : nat) (p : Producto) :
  stored_productos (Sistema.productos_manager s) w = Ok l →
  primero_con_id (PStr id') l i p →
  stored_productos (Sistema.productos_manager s)
    (Sistema.actualizar_producto s id' "" "" "" "" w).2
  = Ok (<[i := set_stock p (PStr "")]> l).
Proof.
  intros Hst Hfind. apply list_find_primero in Hfind.
  unfold Sistema.actualizar_producto.
  rewrite (actualizar_producto_stored _ _ _ _ _ _ _ _ Hst), Hfind. reflexivity.
Qed.

(** C4, where the code departs from it: product "P1" is stored with
    stock 5; the user asks to update "P1" and leaves the four fields
    empty; name, price and category stay, and the stock is stored as the
    empty str. *)
Theorem Sistema_actualizar_producto_pierde_stock :
  let s := Sistema.new in
  let pm := Sistema.productos_manager s in
  stored_productos pm (world_con [P1]) = Ok [P1]
  ∧ stock P1 = PInt 5
  ∧ stored_productos pm (Sistema.actualizar_producto s "P1" "" "" "" "" (world_con [P1])).2
    = Ok [mkProducto (PStr "P1") (PStr "Teclado") (PFloat 10%float) (PStr "Oficina")
                     (PStr "") None].
Proof. repeat split. Qed.

(** ** The theorems at sample inputs *)

Lemma primero_con_id_P1 (l : list Producto) : primero_con_id (PStr "P1") (P1 :: l) 0 P1.
Proof.
  split; [reflexivity|]. split; [reflexivity|].
  intros j q _ Hj. lia.
Defined.

(** Product "P1" with price 10.0 and stock 5, a sale of 3: the stock
    becomes 2 and the total of the sale is 30.0. *)
Lemma registrar_venta_valida_witness :
  let vm := Sistema.venta_manager Sistema.new in
  let pm := Sistema.productos_manager Sistema.new in
  let w := world_con [P1] in
  let r := VentaManager.registrar_venta vm (PStr "P1") 3 [P1] pm "2024-05-01 10:00:00" w in
  (primero_con_id (PStr "P1") [P1] 0 P1
   ∧ stock P1 = PInt 5 ∧ 3 ≤ 5
   ∧ precio P1 = PFloat 10%float ∧ Py.float_of_int 3 = Ok 3%float
   ∧ stored_ventas vm w = Ok []
   ∧ ProductoManager.archivo pm ≠ VentaManager.archivo vm)
  ∧ r.1 = Ok [set_stock P1 (PInt 2)]
  ∧ stored_productos pm r.2 = Ok [set_stock P1 (PInt 2)]
  ∧ stored_ventas vm r.2
    = Ok [mkVenta (PStr "P1") (PInt 3) (PStr "2024-05-01 10:00:00") (PFloat 30%float)]
  ∧ stdout r.2 = [VentaRegistrada (PFloat 30%float)].
Proof.
  intros vm pm w r.
  assert (Hne : ProductoManager.archivo pm ≠ VentaManager.archivo vm) by (simpl; discriminate).
  assert (Hle : 3 ≤ 5) by lia.
  split.
  - repeat split; [intros j q _ Hj; lia | exact Hle | exact Hne].
  - exact (registrar_venta_valida vm (PStr "P1") 3 [P1] pm "2024-05-01 10:00:00" w
             0%nat P1 5 10%float 3%float [] (primero_con_id_P1 []) eq_refl Hle
             eq_refl eq_refl eq_refl Hne).
Defined.

Lemma registrar_venta_rechazada_witness :
  let vm := Sistema.venta_manager Sistema.new in
  let pm := Sistema.productos_manager Sistema.new in
  let w := world_con [P1] in
  ((∀ p, p ∈ [P1] → Py.eq (id p) (PStr "P7") = false)
   ∧ VentaManager.registrar_venta vm (PStr "P7") 3 [P1] pm "2024-05-01 10:00:00" w
     = (Ok [P1],
        World (files w) [Texto "ERROR: No se encontró un producto con ese ID."]))
  ∧ ((primero_con_id (PStr "P1") [P1] 0 P1 ∧ stock P1 = PInt 5 ∧ 5 < 9)
     ∧ VentaManager.registrar_venta vm (PStr "P1") 9 [P1] pm "2024-05-01 10:00:00" w
       = (Ok [P1], World (files w) [Texto "ERROR: Stock insuficiente."])).
Proof.
  intros vm pm w.
  assert (Habs : ∀ p, p ∈ [P1] → Py.eq (id p) (PStr "P7") = false).
  { intros p Hp. apply list_elem_of_singleton in Hp. subst p. reflexivity. }
  assert (Hlt : 5 < 9) by lia.
  split; split.
  - exact Habs.
  - exact (proj1 (registrar_venta_rechazada vm (PStr "P7") 3 [P1] pm
                    "2024-05-01 10:00:00" w) Habs).
  - exact (conj (primero_con_id_P1 []) (conj eq_refl Hlt)).
  - exact (proj2 (registrar_venta_rechazada vm (PStr "P1") 9 [P1] pm
                    "2024-05-01 10:00:00" w) 0%nat P1 5 (primero_con_id_P1 []) eq_refl Hlt).
Defined.

Lemma stocks_no_negativos_P1_P2 : stocks_no_negativos [P1; P2].
Proof.
  repeat constructor; unfold stock_no_negativo; simpl; lia.
Defined.

Lemma stocks_no_negativos_preservados_witness :
  let s := Sistema.new in
  let pm := Sistema.productos_manager s in
  let w := world_con [P1; P2] in
  let nuevo := mkProducto (PStr "P3") (PStr "Mouse") (PFloat 7.5%float) (PStr "Oficina")
                          (PInt 0) None in
  stored_productos pm w = Ok [P1; P2]
  ∧ stocks_no_negativos [P1; P2]
  ∧ stock_no_negativo nuevo
  ∧ (∃ l', stored_productos pm (ProductoManager.registrar_producto pm nuevo w).2 = Ok l'
           ∧ stocks_no_negativos l')
  ∧ (∃ l', stored_productos pm
             (ProductoManager.actualizar_producto pm (PStr "P2") PNone PNone PNone (PInt 8) w).2
           = Ok l'
           ∧ stocks_no_negativos l')
  ∧ (∃ l', stored_productos pm (ProductoManager.eliminar_producto pm (PStr "P1") w).2 = Ok l'
           ∧ stocks_no_negativos l')
  ∧ (∃ l', stored_productos pm (Sistema.registrar_venta s "P1" 5 "2024-05-01 10:00:00" w).2
           = Ok l'
           ∧ stocks_no_negativos l').
Proof.
  intros s pm w nuevo.
  assert (Hnuevo : stock_no_negativo nuevo) by (unfold stock_no_negativo; simpl; lia).
  assert (H8 : (0 ≤ 8)) by lia.
  destruct (stocks_no_negativos_preservados s) as (Hreg & Hact & Hdel & Hven).
  split; [reflexivity|]. split; [exact stocks_no_negativos_P1_P2|]. split; [exact Hnuevo|].
  split; [|split; [|split]].
  - exact (Hreg nuevo Hnuevo w [P1; P2] eq_refl stocks_no_negativos_P1_P2).
  - exact (Hact (PStr "P2") PNone PNone PNone (PInt 8)
             (or_intror (ex_intro _ 8 (conj eq_refl H8)))
             w [P1; P2] eq_refl stocks_no_negativos_P1_P2).
  - exact (Hdel (PStr "P1") w [P1; P2] eq_refl stocks_no_negativos_P1_P2).
  - exact (Hven "P1" 5 "2024-05-01 10:00:00" w [P1; P2] eq_refl stocks_no_negativos_P1_P2).
Defined.

Lemma ids_distintos_P1_P2 : ids_distintos [P1; P2].
Proof.
  unfold ids_distintos. simpl. repeat constructor.
Defined.

Lemma ids_distintos_preservados_witness :
  let s := Sistema.new in
  let pm := Sistema.productos_manager s in
  let w := world_con [P1; P2] in
  stored_productos pm w = Ok [P1; P2]
  ∧ ids_distintos [P1; P2]
  ∧ (∃ l', stored_productos pm (ProductoManager.registrar_producto pm P2 w).2 = Ok l'
           ∧ ids_distintos l')
  ∧ (∃ l', stored_productos pm
             (ProductoManager.actualizar_producto pm (PStr "P2") (PStr "Cable USB") PNone
                PNone PNone w).2
           = Ok l'
           ∧ ids_distintos l')
  ∧ (∃ l', stored_productos pm (ProductoManager.eliminar_producto pm (PStr "P1") w).2 = Ok l'
           ∧ ids_distintos l')
  ∧ (∃ l', stored_productos pm (Sistema.registrar_venta s "P1" 5 "2024-05-01 10:00:00" w).2
           = Ok l'
           ∧ ids_distintos l').
Proof.
  intros s pm w.
  destruct (ids_distintos_preservados s) as (Hreg & Hact & Hdel & Hven).
  split; [reflexivity|]. split; [exact ids_distintos_P1_P2|].
  split; [|split; [|split]].
  - exact (Hreg P2 w [P1; P2] eq_refl ids_distintos_P1_P2).
  - exact (Hact (PStr "P2") (PStr "Cable USB") PNone PNone PNone
             w [P1; P2] eq_refl ids_distintos_P1_P2).
  - exact (Hdel (PStr "P1") w [P1; P2] eq_refl ids_distintos_P1_P2).
  - exact (Hven "P1" 5 "2024-05-01 10:00:00" w [P1; P2] eq_refl ids_distintos_P1_P2).
Defined.

Lemma registrar_producto_duplicado_witness :
  let pm := Sistema.productos_manager Sistema.new in
  let w := world_con [P1; P2] in
  let nuevo := mkProducto (PStr "P2") (PStr "Otro cable") (PFloat 3%float) (PStr "Hogar")
                          (PInt 1) None in
  (stored_productos pm w = Ok [P1; P2] ∧ ∃ p, p ∈ [P1; P2] ∧ mismo_id (id p) (id nuevo))
  ∧ ProductoManager.registrar_producto pm nuevo w
    = (Ok tt, World (files w) [Texto "ERROR: Ya existe un producto con ese ID."]).
Proof.
  intros pm w nuevo.
  assert (Hdup : ∃ p, p ∈ [P1; P2] ∧ mismo_id (id p) (id nuevo)).
  { exists P2. split; [|reflexivity]. apply elem_of_cons. right. apply list_elem_of_here. }
  split.
  - split; [reflexivity | exact Hdup].
  - exact (registrar_producto_duplicado pm nuevo w [P1; P2] eq_refl Hdup).
Defined.

Lemma actualizar_eliminar_id_ausente_witness :
  let pm := Sistema.productos_manager Sistema.new in
  let w := world_con [P1] in
  (stored_productos pm w = Ok [P1] ∧ ∀ p, p ∈ [P1] → Py.eq (id p) (PStr "P7") = false)
  ∧ ProductoManager.actualizar_producto pm (PStr "P7") (PStr "Silla") PNone PNone (PInt 3) w
    = (Ok tt, World (files w) [Texto "ERROR: No se encontró un producto con ese ID."])
  ∧ ProductoManager.eliminar_producto pm (PStr "P7") w
    = (Ok tt, World (files w) [Texto "ERROR: No se encontró un producto con ese ID."]).
Proof.
  intros pm w.
  assert (Habs : ∀ p, p ∈ [P1] → Py.eq (id p) (PStr "P7") = false).
  { intros p Hp. apply list_elem_of_singleton in Hp. subst p. reflexivity. }
  split.
  - split; [reflexivity | exact Habs].
  - exact (actualizar_eliminar_id_ausente pm (PStr "P7") (PStr "Silla") PNone PNone (PInt 3)
             w [P1] eq_refl Habs).
Defined.

Lemma eliminar_producto_primero_witness :
  let pm := Sistema.productos_manager Sistema.new in
  let repetido := set_stock P1 (PInt 1) in
  let w := world_con [P2; P1; repetido] in
  (stored_productos pm w = Ok ([P2] ++ P1 :: [repetido])
   ∧ (∀ q, q ∈ [P2] → Py.eq (id q) (PStr "P1") = false)
   ∧ mismo_id (id P1) (PStr "P1")
   ∧ ∃ q, q ∈ [repetido] ∧ mismo_id (id q) (PStr "P1"))
  ∧ (ProductoManager.eliminar_producto pm (PStr "P1") w).1 = Ok tt
  ∧ stored_productos pm (ProductoManager.eliminar_producto pm (PStr "P1") w).2
    = Ok [P2; repetido].
Proof.
  intros pm repetido w.
  assert (Hl1 : ∀ q, q ∈ [P2] → Py.eq (id q) (PStr "P1") = false).
  { intros q Hq. apply list_elem_of_singleton in Hq. subst q. reflexivity. }
  assert (Hl2 : ∃ q, q ∈ [repetido] ∧ mismo_id (id q) (PStr "P1")).
  { exists repetido. split; [apply list_elem_of_here | reflexivity]. }
  pose proof (eliminar_producto_primero pm (PStr "P1") w [P2] [repetido] P1
                eq_refl Hl1 eq_refl Hl2) as (Hok & Hst & _).
  split.
  - split; [reflexivity|]. split; [exact Hl1|]. split; [reflexivity | exact Hl2].
  - split; [exact Hok | exact Hst].
Defined.


(** * Further properties of the stores *)

(** ** Identifiers that are strs *)

Lemma eq_PStr_inv (a : pyval) (s : string) : Py.eq a (PStr s) = true → a = PStr s.
Proof.
  destruct a; simpl; try discriminate.
  intros H. apply String.eqb_eq in H. by subst.
Qed.

Lemma eq_PStr_refl (s : string) : Py.eq (PStr s) (PStr s) = true.
Proof. simpl. apply String.eqb_refl. Qed.

Lemma existsb_false_forall {A} (f : A → bool) (l : list A) :
  (∀ x, x ∈ l → f x = false) → existsb f l = false.
Proof.
  induction l as [|x l IH]; simpl; intros H; [reflexivity|].
  rewrite (H x) by apply list_elem_of_here. simpl.
  apply IH. intros y Hy. apply H. by apply list_elem_of_further.
Qed.

Lemma cargar_productos_lookup (pm : ProductoManager.t) (w : world)
    (l : list Producto) (i : nat) (p : Producto) :
  stored_productos pm w = Ok l → l !! i = Some p →
  ProductoManager.cargar_productos pm w = (Ok l, w).
Proof.
  intros Hst Hi. destruct l as [|q l]; [by destruct i|].
  by apply cargar_productos_no_vacio.
Qed.

(** ** Registering *)

(** When no stored product has the identifier of the new one, the new
    product goes to the end of the collection, after the products that
    were there, in their order; the success line is printed. *)
Theorem registrar_producto_nuevo
    (pm : ProductoManager.t) (nuevo_producto : Producto) (w : world)
    (l : list Producto) :
  stored_productos pm w = Ok l →
  (∀ p, p ∈ l → Py.eq (id p) (id nuevo_producto) = false) →
  ProductoManager.registrar_producto pm nuevo_producto w
  = (Ok tt,
     World (<[ProductoManager.archivo pm := Json (productos_json (l ++ [nuevo_producto]))]>
              (files w))
           (stdout (ProductoManager.cargar_productos pm w).2
            ++ [ProductoRegistrado (nombre nuevo_producto)]))
  ∧ stored_productos pm (ProductoManager.registrar_producto pm nuevo_producto w).2
    = Ok (l ++ [nuevo_producto]).
Proof.
  intros Hst Hfresh.
  pose proof (existsb_false_forall
                (λ producto, Py.eq (id producto) (id nuevo_producto)) l Hfresh) as Hex.
  split.
  - unfold ProductoManager.registrar_producto, bind.
    rewrite cargar_productos_stored, Hst, Hex. reflexivity.
  - rewrite (registrar_producto_stored pm nuevo_producto w l Hst), Hex. reflexivity.
Qed.

(** Registering over a products file that is not JSON: the load prints
    its error and gives the empty list, so the file is written anew with
    the new product alone, whatever it held. *)
Theorem registrar_producto_sobre_ilegible
    (pm : ProductoManager.t) (nuevo_producto : Producto) (w : world) :
  files w !! ProductoManager.archivo pm = Some Undecodable →
  ProductoManager.registrar_producto pm nuevo_producto w
  = (Ok tt,
     World (<[ProductoManager.archivo pm := Json (productos_json [nuevo_producto])]> (files w))
           (stdout w ++ [Texto "Error al leer el archivo de productos.";
                         ProductoRegistrado (nombre nuevo_producto)]))
  ∧ stored_productos pm (ProductoManager.registrar_producto pm nuevo_producto w).2
    = Ok [nuevo_producto].
Proof.
  intros Hfile.
  assert (Hrun : ProductoManager.registrar_producto pm nuevo_producto w
    = (Ok tt,
       World (<[ProductoManager.archivo pm := Json (productos_json [nuevo_producto])]> (files w))
             (stdout w ++ [Texto "Error al leer el archivo de productos.";
                           ProductoRegistrado (nombre nuevo_producto)]))).
  { unfold ProductoManager.registrar_producto, ProductoManager.cargar_productos,
      bind, read_file.
    rewrite Hfile. simpl. unfold print. simpl. by rewrite <- app_assoc. }
  split; [exact Hrun|]. rewrite Hrun. apply stored_productos_dump.
Qed.

(** ** Updating *)

(** When the first stored product with the identifier is at index [i],
    updating rewrites the file with that product changed and every
    other product as it was.  The product keeps its identifier and its
    discount; a name, price or category is replaced when the argument is
    true as a condition, the stock when the argument is not None. *)
Theorem actualizar_producto_encontrado
    (pm : ProductoManager.t) (id' nombre' precio' categoria' stock' : pyval)
    (w : world) (l : list Producto) (i : nat) (p : Producto) :
  stored_productos pm w = Ok l →
  primero_con_id id' l i p →
  let p' := ProductoManager.actualizar_campos p nombre' precio' categoria' stock' in
  ProductoManager.actualizar_producto pm id' nombre' precio' categoria' stock' w
  = (Ok tt,
     World (<[ProductoManager.archivo pm := Json (productos_json (<[i := p']> l))]> (files w))
           (stdout w ++ [Texto "Producto actualizado exitosamente."]))
  ∧ (∀ j, j ≠ i → <[i := p']> l !! j = l !! j)
  ∧ id p' = id p ∧ descuento p' = descuento p
  ∧ nombre p' = (if Py.truth nombre' then nombre' else nombre p)
  ∧ precio p' = (if Py.truth precio' then precio' else precio p)
  ∧ categoria p' = (if Py.truth categoria' then categoria' else categoria p)
  ∧ stock p' = (if Py.is_not_None stock' then stock' else stock p).
Proof.
  intros Hst Hfind p'.
  pose proof Hfind as (Hi & _). apply list_find_primero in Hfind.
  split.
  - unfold ProductoManager.actualizar_producto, bind.
    rewrite (cargar_productos_lookup pm w l i p Hst Hi), Hfind. reflexivity.
  - split; [intros j Hj; by apply list_lookup_insert_ne|].
    subst p'. unfold ProductoManager.actualizar_campos.
    destruct (Py.truth nombre'), (Py.truth precio'), (Py.truth categoria'),
      (Py.is_not_None stock'); repeat split.
Qed.

(** An update whose name, price and category are false as conditions
    (None, the empty str, 0, 0.0) and whose stock is None stores the
    collection that was stored: a price cannot be set to 0.0 nor a name
    to the empty str. *)
Theorem actualizar_producto_valores_falsos
    (pm : ProductoManager.t) (id' nombre' precio' categoria' : pyval)
    (w : world) (l : list Producto) :
  Py.truth nombre' = false → Py.truth precio' = false → Py.truth categoria' = false →
  stored_productos pm w = Ok l →
  stored_productos pm
    (ProductoManager.actualizar_producto pm id' nombre' precio' categoria' PNone w).2
  = Ok l.
Proof.
  intros Hn Hp Hc Hst.
  rewrite (actualizar_producto_stored pm id' nombre' precio' categoria' PNone w l Hst).
  destruct (list_find _ l) as [[i p]|] eqn:Hfind; [|reflexivity].
  apply list_find_primero in Hfind as (Hi & _).
  unfold ProductoManager.actualizar_campos. rewrite Hn, Hp, Hc. simpl.
  by rewrite list_insert_id.
Qed.

(** ** Deleting *)

(** When the stored collection is [l1 ++ p :: l2] and [p] is the first
    product with the identifier, deleting rewrites the file with
    [l1 ++ l2] and prints the line that names the identifier. *)
Theorem eliminar_producto_encontrado
    (pm : ProductoManager.t) (id' : pyval) (w : world)
    (l1 l2 : list Producto) (p : Producto) :
  stored_productos pm w = Ok (l1 ++ p :: l2) →
  (∀ q, q ∈ l1 → Py.eq (id q) id' = false) →
  mismo_id (id p) id' →
  ProductoManager.eliminar_producto pm id' w
  = (Ok tt,
     World (<[ProductoManager.archivo pm := Json (productos_json (l1 ++ l2))]> (files w))
           (stdout w ++ [ProductoEliminado id'])).
Proof.
  intros Hst Hl1 Hp.
  pose proof (primero_con_id_middle id' l1 l2 p Hl1 Hp) as Hfind.
  pose proof Hfind as (Hi & _). apply list_find_primero in Hfind.
  unfold ProductoManager.eliminar_producto, bind.
  rewrite (cargar_productos_lookup pm w _ _ p Hst Hi), Hfind.
  simpl. by rewrite delete_middle.
Qed.

(** ** What the operations run to *)

Lemma primero_con_id_split (id' : pyval) (l : list Producto) (i : nat) (p : Producto) :
  primero_con_id id' l i p →
  ∃ l1 l2, l = l1 ++ p :: l2 ∧ length l1 = i
           ∧ ∀ q, q ∈ l1 → Py.eq (id q) id' = false.
Proof.
  intros (Hi & _ & Hbefore).
  exists (take i l), (drop (S i) l).
  pose proof (lookup_lt_Some _ _ _ Hi) as Hlt.
  split; [by rewrite take_drop_middle|].
  split; [rewrite length_take; lia|].
  intros q Hq. apply list_elem_of_lookup in Hq as [j Hj].
  pose proof (lookup_lt_Some _ _ _ Hj) as Hjlt. rewrite length_take in Hjlt.
  rewrite lookup_take_lt in Hj by lia. apply (Hbefore j q Hj). lia.
Qed.

Lemma primero_con_id_insert (id' : pyval) (l : list Producto) (i : nat) (p p' : Producto) :
  primero_con_id id' l i p → id p' = id p →
  primero_con_id id' (<[i := p']> l) i p'.
Proof.
  intros (Hi & Hp & Hbefore) Hid. split; [|split].
  - apply list_lookup_insert_eq. by eapply lookup_lt_Some.
  - by rewrite Hid.
  - intros j q Hj Hlt. rewrite list_lookup_insert_ne in Hj by lia. by eapply Hbefore.
Qed.

Lemma distintos_middle (a b : list pyval) (x : pyval) :
  distintos (a ++ x :: b) → Forall (λ y, Py.eq x y = false) b.
Proof.
  induction a as [|y a IH]; simpl.
  - by intros [H _].
  - intros [_ H]. by apply IH.
Qed.

Lemma eliminar_producto_run
    (pm : ProductoManager.t) (id' : pyval) (w : world)
    (l : list Producto) (i : nat) (p : Producto) :
  stored_productos pm w = Ok l → primero_con_id id' l i p →
  ProductoManager.eliminar_producto pm id' w
  = (Ok tt,
     World (<[ProductoManager.archivo pm := Json (productos_json (delete i l))]> (files w))
           (stdout w ++ [ProductoEliminado id'])).
Proof.
  intros Hst Hfind. pose proof Hfind as (Hi & _). apply list_find_primero in Hfind.
  unfold ProductoManager.eliminar_producto, bind.
  rewrite (cargar_productos_lookup pm w l i p Hst Hi), Hfind. reflexivity.
Qed.

Lemma actualizar_producto_run
    (pm : ProductoManager.t) (id' nombre' precio' categoria' stock' : pyval)
    (w : world) (l : list Producto) (i : nat) (p : Producto) :
  stored_productos pm w = Ok l → primero_con_id id' l i p →
  ProductoManager.actualizar_producto pm id' nombre' precio' categoria' stock' w
  = (Ok tt,
     World (<[ProductoManager.archivo pm :=
                Json (productos_json
                        (<[i := ProductoManager.actualizar_campos p nombre' precio'
                                  categoria' stock']> l))]> (files w))
           (stdout w ++ [Texto "Producto actualizado exitosamente."])).
Proof.
  intros Hst Hfind. pose proof Hfind as (Hi & _). apply list_find_primero in Hfind.
  unfold ProductoManager.actualizar_producto, bind.
  rewrite (cargar_productos_lookup pm w l i p Hst Hi), Hfind. reflexivity.
Qed.

Lemma registrar_producto_refused
    (pm : ProductoManager.t) (nuevo_producto : Producto) (w : world) (l : list Producto) :
  stored_productos pm w = Ok l →
  existsb (λ producto, Py.eq (id producto) (id nuevo_producto)) l = true →
  ProductoManager.registrar_producto pm nuevo_producto w
  = (Ok tt, World (files w)
                  (stdout w ++ [Texto "ERROR: Ya existe un producto con ese ID."])).
Proof.
  intros Hst Hex. destruct l as [|q l]; [discriminate|].
  unfold ProductoManager.registrar_producto, bind.
  rewrite (cargar_productos_no_vacio _ _ _ _ Hst), Hex. reflexivity.
Qed.

(** ** Operations one after the other *)

(** With distinct identifiers, deleting a product from the console leaves
    no stored product with its identifier, and deleting the same
    identifier again finds nothing: it prints the error line and writes
    no file. *)
Theorem Sistema_eliminar_producto_sin_rastro
    (s : Sistema.t) (id' : string) (w : world)
    (l : list Producto) (i : nat) (p : Producto) :
  let pm := Sistema.productos_manager s in
  stored_productos pm w = Ok l →
  ids_distintos l →
  primero_con_id (PStr id') l i p →
  let w' := (Sistema.eliminar_producto s id' w).2 in
  stored_productos pm w' = Ok (delete i l)
  ∧ (∀ q, q ∈ delete i l → id q ≠ PStr id')
  ∧ Sistema.eliminar_producto s id' w'
    = (Ok tt, World (files w')
                    (stdout w' ++ [Texto "ERROR: No se encontró un producto con ese ID."])).
Proof.
  intros pm Hst Hdist Hfind w'.
  assert (Hw' : w' = World (<[ProductoManager.archivo pm :=
                               Json (productos_json (delete i l))]> (files w))
                           (stdout w ++ [ProductoEliminado (PStr id')])).
  { subst w'. unfold Sistema.eliminar_producto. fold pm.
    by rewrite (eliminar_producto_run pm (PStr id') w l i p Hst Hfind). }
  assert (Hgone : ∀ q, q ∈ delete i l → id q ≠ PStr id').
  { destruct (primero_con_id_split _ _ _ _ Hfind) as (l1 & l2 & -> & <- & Hl1).
    destruct Hfind as (_ & Hp & _). apply eq_PStr_inv in Hp.
    rewrite delete_middle. intros q Hq Hid. apply elem_of_app in Hq as [Hq | Hq].
    - specialize (Hl1 q Hq). rewrite Hid, eq_PStr_refl in Hl1. discriminate.
    - unfold ids_distintos in Hdist. rewrite fmap_app, fmap_cons in Hdist.
      apply distintos_middle in Hdist. rewrite Forall_fmap, Forall_forall in Hdist.
      specialize (Hdist q Hq). unfold compose in Hdist.
      rewrite Hp, Hid, eq_PStr_refl in Hdist. discriminate. }
  assert (Hst' : ProductoManager.cargar_productos pm w' = (Ok (delete i l), w')).
  { apply stored_productos_json. rewrite Hw'. simpl. apply lookup_insert_eq. }
  split; [unfold stored_productos; by rewrite Hst'|]. split; [exact Hgone|].
  unfold Sistema.eliminar_producto, ProductoManager.eliminar_producto, bind.
  fold pm. rewrite Hst'.
  assert (Hnone : list_find (λ q, Is_true (Py.eq (id q) (PStr id'))) (delete i l) = None).
  { apply list_find_ausente. intros q Hq.
    destruct (Py.eq (id q) (PStr id')) eqn:Heq; [|reflexivity].
    apply eq_PStr_inv in Heq. by apply Hgone in Hq. }
  rewrite Hnone. reflexivity.
Qed.

(** Registering from the console a product whose identifier is not
    stored, and then deleting that identifier, leaves the stored
    collection as it was before the two. *)
Theorem Sistema_registrar_eliminar
    (s : Sistema.t) (id' nombre' : string) (precio' : float) (categoria' : string)
    (stock' : Z) (w : world) (l : list Producto) :
  let pm := Sistema.productos_manager s in
  stored_productos pm w = Ok l →
  (∀ p, p ∈ l → Py.eq (id p) (PStr id') = false) →
  stored_productos pm
    (Sistema.eliminar_producto s id'
       (Sistema.registrar_producto s id' nombre' precio' categoria' stock' w).2).2
  = Ok l.
Proof.
  intros pm Hst Hfresh.
  set (nuevo := mkProducto (PStr id') (PStr nombre') (PFloat precio') (PStr categoria')
                           (PInt stock') None).
  assert (Hreg : stored_productos pm
                   (Sistema.registrar_producto s id' nombre' precio' categoria' stock' w).2
                 = Ok (l ++ [nuevo])).
  { unfold Sistema.registrar_producto. fold pm nuevo.
    rewrite (registrar_producto_stored pm nuevo w l Hst).
    by rewrite (existsb_false_forall (λ producto, Py.eq (id producto) (id nuevo)) l Hfresh). }
  unfold Sistema.eliminar_producto. fold pm.
  rewrite (eliminar_producto_stored pm (PStr id') _ _ Hreg).
  assert (Hfind : primero_con_id (PStr id') (l ++ [nuevo]) (length l) nuevo).
  { apply primero_con_id_middle; [exact Hfresh | apply eq_PStr_refl]. }
  apply list_find_primero in Hfind. rewrite Hfind.
  by rewrite delete_middle, app_nil_r.
Qed.

(** Registering an identifier from the console a second time, with
    whatever other fields, is refused: it prints the error line and
    writes no file, so the store holds what the first registration
    left. *)
Theorem Sistema_registrar_dos_veces
    (s : Sistema.t) (id' nombre1 : string) (precio1 : float) (categoria1 : string)
    (stock1 : Z) (nombre2 : string) (precio2 : float) (categoria2 : string) (stock2 : Z)
    (w : world) (l : list Producto) :
  stored_productos (Sistema.productos_manager s) w = Ok l →
  let w1 := (Sistema.registrar_producto s id' nombre1 precio1 categoria1 stock1 w).2 in
  Sistema.registrar_producto s id' nombre2 precio2 categoria2 stock2 w1
  = (Ok tt, World (files w1)
                  (stdout w1 ++ [Texto "ERROR: Ya existe un producto con ese ID."])).
Proof.
  intros Hst w1. set (pm := Sistema.productos_manager s) in *.
  set (nuevo := mkProducto (PStr id') (PStr nombre1) (PFloat precio1) (PStr categoria1)
                           (PInt stock1) None).
  assert (Hst1 : stored_productos pm w1
                 = Ok (if existsb (λ producto, Py.eq (id producto) (PStr id')) l
                       then l else l ++ [nuevo])).
  { subst w1. unfold Sistema.registrar_producto. fold pm nuevo.
    apply (registrar_producto_stored pm nuevo w l Hst). }
  unfold Sistema.registrar_producto. fold pm.
  apply (registrar_producto_refused pm _ w1 _ Hst1). simpl id.
  destruct (existsb _ l) eqn:Hex; [exact Hex|].
  rewrite existsb_app, Hex. simpl. by rewrite String.eqb_refl.
Qed.

(** After an update from the console that finds the product, the stock
    of the product is a str, so every sale of that product from the
    console raises [TypeError] at the comparison with the quantity, and
    writes no file. *)
Theorem Sistema_actualizar_luego_venta_falla
    (s : Sistema.t) (id' nombre' precio' categoria' stock' : string)
    (cantidad' : Z) (ahora : string) (w : world)
    (l : list Producto) (i : nat) (p : Producto) :
  stored_productos (Sistema.productos_manager s) w = Ok l →
  primero_con_id (PStr id') l i p →
  let w1 := (Sistema.actualizar_producto s id' nombre' precio' categoria' stock' w).2 in
  Sistema.registrar_venta s id' cantidad' ahora w1 = (Raise TypeError, w1).
Proof.
  intros Hst Hfind w1. set (pm := Sistema.productos_manager s) in *.
  set (p' := ProductoManager.actualizar_campos p (PStr nombre') (PStr precio')
               (PStr categoria') (PStr stock')).
  assert (Hw1 : w1 = World (<[ProductoManager.archivo pm :=
                               Json (productos_json (<[i := p']> l))]> (files w))
                           (stdout w ++ [Texto "Producto actualizado exitosamente."])).
  { subst w1. unfold Sistema.actualizar_producto. fold pm.
    by rewrite (actualizar_producto_run pm _ _ _ _ _ w l i p Hst Hfind). }
  assert (Hload : ProductoManager.cargar_productos pm w1 = (Ok (<[i := p']> l), w1)).
  { apply stored_productos_json. rewrite Hw1. simpl. apply lookup_insert_eq. }
  assert (Hfind' : primero_con_id (PStr id') (<[i := p']> l) i p').
  { apply (primero_con_id_insert _ _ _ p); [assumption | apply actualizar_campos_id]. }
  apply list_find_primero in Hfind'.
  unfold Sistema.registrar_venta, bind. fold pm. rewrite Hload.
  unfold VentaManager.registrar_venta. rewrite Hfind'.
  unfold bind, lift. subst p'. rewrite actualizar_campos_stock. reflexivity.
Qed.

(** ** What an operation does not touch *)

(** An update changes no identifier and no discount, and neither the
    number nor the order of the stored products. *)
Theorem actualizar_producto_conserva_ids
    (pm : ProductoManager.t) (id' nombre' precio' categoria' stock' : pyval)
    (w : world) (l : list Producto) :
  stored_productos pm w = Ok l →
  ∃ l', stored_productos pm
          (ProductoManager.actualizar_producto pm id' nombre' precio' categoria' stock' w).2
        = Ok l'
        ∧ (λ q, (id q, descuento q)) <$> l' = (λ q, (id q, descuento q)) <$> l.
Proof.
  intros Hst. eexists. split; [by apply actualizar_producto_stored|].
  destruct (list_find _ l) as [[i p]|] eqn:Hfind; [|reflexivity].
  apply list_find_primero in Hfind as (Hi & _).
  rewrite list_fmap_insert. apply list_insert_id.
  rewrite list_lookup_fmap, Hi. simpl. f_equal.
  unfold ProductoManager.actualizar_campos.
  destruct (Py.truth nombre'), (Py.truth precio'), (Py.truth categoria'),
    (Py.is_not_None stock'); reflexivity.
Qed.

(** A sale from the console changes nothing in the stored products but
    stock: with the stocks blanked out, the collection stored after it is
    the collection stored before it. *)
Theorem Sistema_registrar_venta_solo_stock
    (s : Sistema.t) (producto_id' : string) (cantidad' : Z) (ahora : string)
    (w : world) (l : list Producto) :
  stored_productos (Sistema.productos_manager s) w = Ok l →
  ∃ l', stored_productos (Sistema.productos_manager s)
          (Sistema.registrar_venta s producto_id' cantidad' ahora w).2 = Ok l'
        ∧ sin_stock <$> l' = sin_stock <$> l.
Proof.
  intros Hst.
  destruct (Sistema_registrar_venta_stored s producto_id' cantidad' ahora w l Hst)
    as [Hsame | (i & p & stock' & (Hi & _) & _ & _ & Hnew)].
  - by exists l.
  - eexists. split; [exact Hnew|].
    rewrite list_fmap_insert. apply list_insert_id.
    by rewrite list_lookup_fmap, Hi.
Qed.

(** ** Producto.actualizar_stock *)

(** On a product whose stock is a non-negative int, [actualizar_stock]
    returns True exactly when the quantity is at most the stock, and then
    lowers the stock by the quantity; otherwise the stock stays.  The
    stock is a non-negative int afterwards, and nothing but the stock is
    changed. *)
Theorem actualizar_stock_no_negativo (p : Producto) (cantidad' z : Z) :
  stock p = PInt z → 0 ≤ z →
  ∃ p' cabe,
    actualizar_stock p cantidad' = Ok (p', cabe)
    ∧ (cabe = true ↔ cantidad' ≤ z)
    ∧ stock p' = PInt (if cabe then z - cantidad' else z)
    ∧ stock_no_negativo p'
    ∧ sin_stock p' = sin_stock p.
Proof.
  intros Hstock Hz. unfold actualizar_stock. rewrite Hstock. simpl.
  destruct (cantidad' <=? z) eqn:Hle.
  - apply Z.leb_le in Hle. exists (set_stock p (PInt (z - cantidad'))), true.
    split; [reflexivity|]. split; [by split|]. split; [reflexivity|].
    split; [unfold stock_no_negativo; simpl; lia | reflexivity].
  - apply Z.leb_gt in Hle. exists p, false.
    split; [reflexivity|]. split; [split; [discriminate | lia]|].
    split; [exact Hstock|].
    split; [unfold stock_no_negativo; by rewrite Hstock | reflexivity].
Qed.

(** ** A sale and the two files *)

(** A sale writes both files or none, and touches no other file. *)
Theorem registrar_venta_ambos_o_ninguno
    (vm : VentaManager.t) (producto_id' : pyval) (cantidad' : Z)
    (productos : list Producto) (pm : ProductoManager.t) (ahora : string) (w : world) :
  let r := VentaManager.registrar_venta vm producto_id' cantidad' productos pm ahora w in
  (files r.2 = files w
   ∨ ∃ productos' ventas',
       files r.2 = <[ProductoManager.archivo pm := Json (productos_json productos')]>
                     (<[VentaManager.archivo vm := Json (ventas_json ventas')]> (files w)))
  ∧ ∀ path, path ≠ ProductoManager.archivo pm → path ≠ VentaManager.archivo vm →
            files r.2 !! path = files w !! path.
Proof.
  intros r. subst r.
  destruct (registrar_venta_outcome vm producto_id' cantidad' productos pm ahora w)
    as [Hsame | (i & p & stock' & total' & ventas & _ & _ & _ & _ & _ & Hfiles)].
  - split; [by left|]. intros path _ _. by rewrite Hsame.
  - split; [right; eauto|]. intros path Hpm Hvm.
    rewrite Hfiles. by rewrite !lookup_insert_ne.
Qed.

(** When a sale returns, the list it returns is the list of the caller
    untouched, with no file written, or it is that list with the product
    found changed as [Producto.actualizar_stock] changes it, and then it
    is what the products file holds. *)
Theorem registrar_venta_retorno
    (vm : VentaManager.t) (producto_id' : pyval) (cantidad' : Z)
    (productos : list Producto) (pm : ProductoManager.t) (ahora : string) (w : world)
    (productos' : list Producto) :
  let r := VentaManager.registrar_venta vm producto_id' cantidad' productos pm ahora w in
  r.1 = Ok productos' →
  (productos' = productos ∧ files r.2 = files w)
  ∨ ∃ i p p',
      primero_con_id producto_id' productos i p
      ∧ actualizar_stock p cantidad' = Ok (p', true)
      ∧ productos' = <[i := p']> productos
      ∧ stored_productos pm r.2 = Ok productos'.
Proof.
  intros r. subst r. unfold VentaManager.registrar_venta.
  destruct (list_find _ productos) as [[i p]|] eqn:Hfind.
  2: { simpl. intros [= <-]. by left. }
  apply list_find_primero in Hfind.
  unfold bind, lift.
  destruct (Py.ge_int (stock p) cantidad') as [[|]|] eqn:Hge.
  2: { simpl. intros [= <-]. by left. }
  2: { simpl. discriminate. }
  destruct (Py.sub_int (stock p) cantidad') as [stock'|] eqn:Hsub; [|simpl; discriminate].
  change (precio (set_stock p stock')) with (precio p).
  destruct (Py.mul_int (precio p) cantidad') as [total'|]; [|simpl; discriminate].
  rewrite cargar_ventas_stored.
  destruct (stored_ventas vm w) as [ventas|]; [|simpl; discriminate].
  unfold VentaManager.guardar_ventas, ProductoManager.guardar_productos,
    json_dump, print, ret. simpl.
  destruct (Py.format_2f total'); simpl; [|discriminate].
  intros [= <-]. right. exists i, p, (set_stock p stock').
  split; [assumption|]. split; [|split; [reflexivity | apply stored_productos_dump]].
  unfold actualizar_stock. by rewrite Hge, Hsub.
Qed.

(** With the two stores on different files, a sale never removes or
    changes a stored sale: afterwards the sales file holds the sales it
    held, followed by at most one more. *)
Theorem registrar_venta_ventas_solo_crecen
    (vm : VentaManager.t) (producto_id' : pyval) (cantidad' : Z)
    (productos : list Producto) (pm : ProductoManager.t) (ahora : string) (w : world)
    (ventas : list Venta) :
  ProductoManager.archivo pm ≠ VentaManager.archivo vm →
  stored_ventas vm w = Ok ventas →
  ∃ nuevas,
    stored_ventas vm
      (VentaManager.registrar_venta vm producto_id' cantidad' productos pm ahora w).2
    = Ok (ventas ++ nuevas)
    ∧ (length nuevas ≤ 1)%nat.
Proof.
  intros Hne Hven.
  destruct (registrar_venta_outcome vm producto_id' cantidad' productos pm ahora w)
    as [Hsame | (i & p & stock' & total' & ventas0 & _ & _ & _ & _ & Hven0 & Hfiles)].
  - exists []. rewrite app_nil_r. split; [|simpl; lia].
    rewrite <- Hven. apply stored_ventas_ext. by rewrite Hsame.
  - rewrite Hven in Hven0. injection Hven0 as <-.
    eexists [_]. split; [|simpl; lia].
    unfold stored_ventas. erewrite stored_ventas_json; [reflexivity|].
    rewrite Hfiles. rewrite lookup_insert_ne by assumption. apply lookup_insert_eq.
Qed.

(** The sale does not ask for a positive quantity: on a product with a
    non-negative int stock and a float price, a negative quantity is
    accepted, the stored stock goes up by its size, and the sale is
    recorded with the negative quantity. *)
Theorem registrar_venta_cantidad_negativa
    (vm : VentaManager.t) (producto_id' : pyval) (cantidad' : Z)
    (productos : list Producto) (pm : ProductoManager.t) (ahora : string) (w : world)
    (i : nat) (p : Producto) (z : Z) (f g : float) (ventas : list Venta) :
  primero_con_id producto_id' productos i p →
  stock p = PInt z → 0 ≤ z → cantidad' < 0 →
  precio p = PFloat f → Py.float_of_int cantidad' = Ok g →
  stored_ventas vm w = Ok ventas →
  ProductoManager.archivo pm ≠ VentaManager.archivo vm →
  let r := VentaManager.registrar_venta vm producto_id' cantidad' productos pm ahora w in
  stored_productos pm r.2 = Ok (<[i := set_stock p (PInt (z + - cantidad'))]> productos)
  ∧ z < z + - cantidad'
  ∧ stored_ventas vm r.2
    = Ok (ventas ++ [mkVenta producto_id' (PInt cantidad') (PStr ahora) (PFloat (f * g)%float)]).
Proof.
  intros Hfind Hstock Hz Hneg Hprecio Hg Hven Hne r.
  destruct (registrar_venta_outcome vm producto_id' cantidad' productos pm ahora w)
    as [Hsame | (i0 & p0 & stock' & total' & ventas0 & Hfind0 & _ & Hsub & Hmul & Hven0 & Hfiles)].
  - exfalso. revert Hsame. unfold VentaManager.registrar_venta.
    apply list_find_primero in Hfind. rewrite Hfind, Hstock.
    unfold bind, lift. simpl Py.ge_int.
    replace (cantidad' <=? z) with true by (symmetry; apply Z.leb_le; lia).
    simpl Py.sub_int. cbv beta iota.
    change (precio (set_stock p (PInt (z - cantidad')))) with (precio p).
    rewrite Hprecio. simpl Py.mul_int. rewrite Hg. simpl result_bind.
    rewrite cargar_ventas_stored, Hven. simpl. intros Hsame.
    assert (Hin : (<[ProductoManager.archivo pm :=
                      Json (productos_json (<[i := set_stock p (PInt (z - cantidad'))]> productos))]>
                    (<[VentaManager.archivo vm :=
                         Json (ventas_json
                                 (ventas ++ [mkVenta producto_id' (PInt cantidad') (PStr ahora)
                                               (PFloat (f * g)%float)]))]> (files w)))
                  !! VentaManager.archivo vm = files w !! VentaManager.archivo vm)
      by (by rewrite Hsame).
    rewrite lookup_insert_ne, lookup_insert_eq in Hin by assumption.
    pose proof (f_equal fst (cargar_ventas_stored vm w)) as Hld. simpl in Hld.
    assert (Hst2 : stored_ventas vm w
                   = Ok (ventas ++ [mkVenta producto_id' (PInt cantidad') (PStr ahora)
                                      (PFloat (f * g)%float)])).
    { unfold stored_ventas. erewrite stored_ventas_json; [reflexivity | by symmetry]. }
    rewrite Hven in Hst2. injection Hst2 as Hst2.
    apply (f_equal length) in Hst2. rewrite length_app in Hst2. simpl in Hst2. lia.
  - apply list_find_primero in Hfind, Hfind0. rewrite Hfind in Hfind0.
    injection Hfind0 as <- <-.
    rewrite Hstock in Hsub. injection Hsub as <-.
    rewrite Hprecio in Hmul. simpl in Hmul. rewrite Hg in Hmul. injection Hmul as <-.
    rewrite Hven in Hven0. injection Hven0 as <-.
    subst r. destruct (VentaManager.registrar_venta _ _ _ _ _ _ _).2 as [fs out].
    simpl in Hfiles. subst fs.
    replace (z + - cantidad') with (z - cantidad') by lia.
    split; [apply stored_productos_dump|]. split; [lia|].
    unfold stored_ventas. erewrite stored_ventas_json; [reflexivity|].
    simpl. rewrite lookup_insert_ne by assumption. apply lookup_insert_eq.
Qed.

(** ** What a products file may hold *)

Lemma assoc_Some_elem_of {A} (k : string) (d : list (string * A)) (v : A) :
  assoc k d = Some v → (k, v) ∈ d.
Proof.
  induction d as [|[k' v'] d IH]; simpl; [discriminate|].
  destruct (String.eqb_spec k' k) as [->|Hne].
  - intros [= ->]. apply list_elem_of_here.
  - intros H. apply list_elem_of_further. by apply IH.
Qed.

Lemma assoc_None_not_key {A} (k : string) (d : list (string * A)) :
  k ∉ d.*1 → assoc k d = None.
Proof.
  intros Hk. destruct (assoc k d) as [v|] eqn:Hv; [|reflexivity].
  apply assoc_Some_elem_of in Hv. exfalso. apply Hk.
  apply list_elem_of_fmap. by exists (k, v).
Qed.

Lemma assoc_NoDup {A} (k : string) (d : list (string * A)) (v : A) :
  NoDup d.*1 → (k, v) ∈ d → assoc k d = Some v.
Proof.
  induction d as [|[k' v'] d IH]; simpl; intros Hnd Hin.
  - by apply elem_of_nil in Hin.
  - apply NoDup_cons in Hnd as [Hk' Hnd].
    apply elem_of_cons in Hin as [[= <- <-] | Hin].
    + by rewrite String.eqb_refl.
    + destruct (String.eqb_spec k' k) as [->|Hne]; [|by apply IH].
      exfalso. apply Hk'. apply list_elem_of_fmap. by exists (k, v).
Qed.

Lemma assoc_Permutation {A} (k : string) (d d' : list (string * A)) :
  NoDup d.*1 → d ≡ₚ d' → assoc k d = assoc k d'.
Proof.
  intros Hnd Hperm.
  assert (Hnd' : NoDup d'.*1) by (by rewrite <- Hperm).
  destruct (assoc k d) as [v|] eqn:Hv.
  - symmetry. apply assoc_NoDup; [assumption|].
    rewrite <- Hperm. by apply assoc_Some_elem_of.
  - destruct (assoc k d') as [v'|] eqn:Hv'; [|reflexivity].
    apply assoc_Some_elem_of in Hv'. rewrite <- Hperm in Hv'.
    apply (assoc_NoDup _ _ _ Hnd) in Hv'. congruence.
Qed.

Lemma keywords_match_Permutation (params : list string) (d d' : list (string * pyval)) :
  NoDup d.*1 → d ≡ₚ d' → keywords_match params d = keywords_match params d'.
Proof.
  intros Hnd Hperm. unfold keywords_match. f_equal.
  - apply Bool.eq_true_iff_eq. rewrite !forallb_forall.
    split; intros H x Hx; apply H; apply list_elem_of_In;
      apply list_elem_of_In in Hx; [by rewrite Hperm | by rewrite <- Hperm].
  - induction params as [|k params IH]; simpl; [reflexivity|].
    by rewrite IH, (assoc_Permutation k d d' Hnd Hperm).
Qed.

Lemma Producto_dict_NoDup (p : Producto) : NoDup (Producto_dict p).*1.
Proof.
  destruct p as [a b c e f [g|]]; simpl;
    apply (bool_decide_unpack _); vm_compute; reflexivity.
Qed.

(** The order of the keys of a record does not matter to the load: the
    items of a product, in any order, are read as that product. *)
Theorem desde_json_Permutation (p : Producto) (d : list (string * pyval)) :
  d ≡ₚ Producto_dict p →
  ProductoManager.desde_json (PDict d) = Ok p.
Proof.
  intros Hperm. rewrite <- (Producto_desde_json_dict p).
  assert (Hnd : NoDup d.*1) by (rewrite Hperm; apply Producto_dict_NoDup).
  unfold ProductoManager.desde_json, Producto_kw, ProductoEspecial_kw.
  rewrite !(keywords_match_Permutation _ d (Producto_dict p) Hnd Hperm).
  by rewrite !(λ k, assoc_Permutation k d (Producto_dict p) Hnd Hperm).
Qed.

Lemma keywords_match_keys (params : list string) (d : list (string * pyval)) (k : string) :
  keywords_match params d = true → k ∉ params → assoc k d = None.
Proof.
  unfold keywords_match. intros Hkm Hk. apply andb_prop in Hkm as [Hkeys _].
  apply assoc_None_not_key. intros Hin. apply Hk.
  apply list_elem_of_fmap in Hin as ([k' v] & -> & Hin).
  rewrite forallb_forall in Hkeys. apply list_elem_of_In in Hin.
  apply Hkeys in Hin. by apply bool_decide_eq_true in Hin.
Qed.

(** A value is read as a product only when it is a dict that has the
    same keys with the same values as the product's own [__dict__]:
    every field is there, and no other key. *)
Theorem desde_json_Ok_inv (v : pyval) (p : Producto) :
  ProductoManager.desde_json v = Ok p →
  ∃ d, v = PDict d ∧ ∀ k, assoc k d = assoc k (Producto_dict p).
Proof.
  destruct v as [| | | | | |d]; unfold ProductoManager.desde_json; try discriminate.
  intros H. exists d. split; [reflexivity|]. intros k. revert H.
  destruct (bool_decide (is_Some (assoc "descuento" d))) eqn:Hdesc; cbn [negb].
  - unfold ProductoEspecial_kw.
    destruct (keywords_match _ d) eqn:Hkm; [|discriminate].
    destruct (assoc "id" d) as [a|] eqn:Ha; [|discriminate].
    destruct (assoc "nombre" d) as [b|] eqn:Hb; [|discriminate].
    destruct (assoc "precio" d) as [c|] eqn:Hc; [|discriminate].
    destruct (assoc "categoria" d) as [e|] eqn:He; [|discriminate].
    destruct (assoc "stock" d) as [f|] eqn:Hf; [|discriminate].
    destruct (assoc "descuento" d) as [g|] eqn:Hg; [|discriminate].
    intros [= <-].
    destruct (decide (k ∈ ["id"; "nombre"; "precio"; "categoria"; "stock"; "descuento"]))
      as [Hin | Hout].
    + repeat (apply elem_of_cons in Hin as [-> | Hin]; [assumption|]).
      by apply elem_of_nil in Hin.
    + rewrite (keywords_match_keys _ d k Hkm Hout). symmetry.
      apply assoc_None_not_key. exact Hout.
  - unfold Producto_kw.
    destruct (keywords_match _ d) eqn:Hkm; [|discriminate].
    destruct (assoc "id" d) as [a|] eqn:Ha; [|discriminate].
    destruct (assoc "nombre" d) as [b|] eqn:Hb; [|discriminate].
    destruct (assoc "precio" d) as [c|] eqn:Hc; [|discriminate].
    destruct (assoc "categoria" d) as [e|] eqn:He; [|discriminate].
    destruct (assoc "stock" d) as [f|] eqn:Hf; [|discriminate].
    intros [= <-].
    destruct (decide (k ∈ ["id"; "nombre"; "precio"; "categoria"; "stock"]))
      as [Hin | Hout].
    + repeat (apply elem_of_cons in Hin as [-> | Hin]; [assumption|]).
      by apply elem_of_nil in Hin.
    + rewrite (keywords_match_keys _ d k Hkm Hout). symmetry.
      apply assoc_None_not_key. exact Hout.
Qed.

Lemma desde_json_TypeError (v : pyval) (e : exn) :
  ProductoManager.desde_json v = Raise e → e = TypeError.
Proof.
  destruct v as [| | | | | |d]; simpl; try (by intros [= <-]).
  unfold Producto_kw, ProductoEspecial_kw.
  destruct (negb _); destruct (keywords_match _ d);
    repeat (match goal with |- context [match assoc ?k d with _ => _ end] =>
                              destruct (assoc k d) end);
    (discriminate || by intros [= <-]).
Qed.

Lemma result_mapM_Raise {A B} (f : A → result B) (l : list A) (e : exn) :
  result_mapM f l = Raise e → ∃ x, x ∈ l ∧ f x = Raise e.
Proof.
  induction l as [|x l IH]; simpl; [discriminate|].
  destruct (f x) as [y|e'] eqn:Hx; simpl.
  - destruct (result_mapM f l) as [ys|e'']; simpl; [discriminate|].
    intros [= <-]. destruct (IH eq_refl) as (x' & Hin & Hx').
    exists x'. split; [by apply list_elem_of_further | assumption].
  - intros [= <-]. exists x. split; [apply list_elem_of_here | assumption].
Qed.

Lemma result_mapM_elem_Raise {A B} (f : A → result B) (l : list A) (x : A) :
  x ∈ l → (∀ y, f x ≠ Ok y) → ∃ e, result_mapM f l = Raise e.
Proof.
  intros Hin Hx. induction l as [|x' l IH]; [by apply elem_of_nil in Hin|].
  simpl. apply elem_of_cons in Hin as [<- | Hin].
  - destruct (f x) as [y|e]; [by destruct (Hx y) | by exists e].
  - destruct (f x') as [y|e]; simpl; [|by exists e].
    destruct (IH Hin) as [e ->]. by exists e.
Qed.

Lemma cargar_productos_Raise (pm : ProductoManager.t) (w : world) (e : exn) :
  stored_productos pm w = Raise e →
  e = TypeError ∧ ProductoManager.cargar_productos pm w = (Raise TypeError, w).
Proof.
  unfold stored_productos, ProductoManager.cargar_productos, bind, read_file, lift.
  destruct (files w !! ProductoManager.archivo pm) as [[|v]|]; simpl; try discriminate.
  destruct (Py.iter v) as [items|e0] eqn:Hiter; simpl.
  - destruct (result_mapM ProductoManager.desde_json items) as [l|e1] eqn:Hm; simpl;
      [discriminate|].
    intros [= <-]. apply result_mapM_Raise in Hm as (x & _ & Hx).
    apply desde_json_TypeError in Hx. subst e1. split; reflexivity.
  - intros [= <-]. assert (e0 = TypeError) as ->; [|split; reflexivity].
    destruct v; simpl in Hiter; congruence.
Qed.

(** A products file that is a JSON list with an item that is not a
    dict, or that is a dict without one of the five fields, cannot be
    loaded: the load raises [TypeError], prints nothing and writes
    nothing. *)
Theorem cargar_productos_registro_ajeno
    (pm : ProductoManager.t) (w : world) (items : list pyval) (x : pyval) :
  files w !! ProductoManager.archivo pm = Some (Json (PList items)) →
  x ∈ items →
  ((∀ d, x ≠ PDict d)
   ∨ ∃ d k, x = PDict d ∧ k ∈ ["id"; "nombre"; "precio"; "categoria"; "stock"]
            ∧ assoc k d = None) →
  ProductoManager.cargar_productos pm w = (Raise TypeError, w).
Proof.
  intros Hfile Hin Hbad.
  assert (Hx : ∀ p, ProductoManager.desde_json x ≠ Ok p).
  { intros p Hp. apply desde_json_Ok_inv in Hp as (d & -> & Hd).
    destruct Hbad as [Hnd | (d' & k & [= <-] & Hk & Hnone)]; [by apply (Hnd d)|].
    rewrite Hd in Hnone.
    repeat (apply elem_of_cons in Hk as [-> | Hk]; [discriminate|]).
    by apply elem_of_nil in Hk. }
  destruct (result_mapM_elem_Raise ProductoManager.desde_json items x Hin Hx) as [e He].
  apply cargar_productos_Raise with (e := e).
  unfold stored_productos, ProductoManager.cargar_productos, bind, read_file, lift.
  rewrite Hfile. simpl. by rewrite He.
Qed.

(** When the load of the products raises, every operation on the
    products raises what the load raised and leaves the files and the
    console as they were: unlike a file that is not JSON, such a file is
    never written over. *)
Theorem carga_fallida_se_propaga
    (s : Sistema.t) (w : world) (e : exn)
    (nuevo_producto : Producto) (id' nombre' precio' categoria' stock' : pyval)
    (producto_id' : string) (cantidad' : Z) (ahora : string) :
  let pm := Sistema.productos_manager s in
  stored_productos pm w = Raise e →
  ProductoManager.registrar_producto pm nuevo_producto w = (Raise e, w)
  ∧ ProductoManager.actualizar_producto pm id' nombre' precio' categoria' stock' w
    = (Raise e, w)
  ∧ ProductoManager.eliminar_producto pm id' w = (Raise e, w)
  ∧ Sistema.registrar_venta s producto_id' cantidad' ahora w = (Raise e, w).
Proof.
  intros pm Hst. apply cargar_productos_Raise in Hst as [-> Hload].
  unfold ProductoManager.registrar_producto, ProductoManager.actualizar_producto,
    ProductoManager.eliminar_producto, Sistema.registrar_venta, bind.
  fold pm. rewrite Hload. repeat split.
Qed.

(** ** The further properties at sample inputs *)

Lemma primero_con_id_P2 : primero_con_id (PStr "P2") [P1; P2] 1 P2.
Proof.
  split; [reflexivity|]. split; [reflexivity|].
  intros j q Hj Hlt. destruct j as [|j]; [|lia].
  injection Hj as <-. reflexivity.
Defined.

Lemma P1_no_es_P2 : ∀ p, p ∈ [P1] → Py.eq (id p) (id P2) = false.
Proof.
  intros p Hp. apply list_elem_of_singleton in Hp. subst p. reflexivity.
Defined.

Lemma P1_no_es_P3 : ∀ p, p ∈ [P1] → Py.eq (id p) (PStr "P3") = false.
Proof.
  intros p Hp. apply list_elem_of_singleton in Hp. subst p. reflexivity.
Defined.

Lemma registrar_producto_nuevo_witness :
  let pm := Sistema.productos_manager Sistema.new in
  let w := world_con [P1] in
  (stored_productos pm w = Ok [P1] ∧ ∀ p, p ∈ [P1] → Py.eq (id p) (id P2) = false)
  ∧ stored_productos pm (ProductoManager.registrar_producto pm P2 w).2 = Ok [P1; P2].
Proof.
  intros pm w. split; [split; [reflexivity | exact P1_no_es_P2]|].
  exact (proj2 (registrar_producto_nuevo pm P2 w [P1] eq_refl P1_no_es_P2)).
Defined.

Lemma registrar_producto_sobre_ilegible_witness :
  let pm := Sistema.productos_manager Sistema.new in
  let w := World {[ "productos.txt" := Undecodable ]} [] in
  files w !! ProductoManager.archivo pm = Some Undecodable
  ∧ stored_productos pm (ProductoManager.registrar_producto pm P1 w).2 = Ok [P1]
  ∧ stdout (ProductoManager.registrar_producto pm P1 w).2
    = [Texto "Error al leer el archivo de productos."; ProductoRegistrado (PStr "Teclado")].
Proof.
  intros pm w. split; [reflexivity|].
  pose proof (registrar_producto_sobre_ilegible pm P1 w eq_refl) as [Hrun Hst].
  split; [exact Hst|]. exact (f_equal (λ r, stdout r.2) Hrun).
Defined.

Lemma actualizar_producto_encontrado_witness :
  let pm := Sistema.productos_manager Sistema.new in
  let w := world_con [P1; P2] in
  let p' := ProductoManager.actualizar_campos P2 (PStr "Cable USB") PNone PNone (PInt 8) in
  (stored_productos pm w = Ok [P1; P2] ∧ primero_con_id (PStr "P2") [P1; P2] 1 P2)
  ∧ stored_productos pm
      (ProductoManager.actualizar_producto pm (PStr "P2") (PStr "Cable USB") PNone PNone
         (PInt 8) w).2
    = Ok [P1; p']
  ∧ nombre p' = PStr "Cable USB" ∧ precio p' = PFloat 2.5%float ∧ stock p' = PInt 8
  ∧ descuento p' = Some (PFloat 0.25%float).
Proof.
  intros pm w p'. split; [split; [reflexivity | exact primero_con_id_P2]|].
  pose proof (actualizar_producto_encontrado pm (PStr "P2") (PStr "Cable USB") PNone PNone
                (PInt 8) w [P1; P2] 1%nat P2 eq_refl primero_con_id_P2)
    as (Hrun & _ & _ & Hd & Hn & Hp & _ & Hs).
  split; [exact (f_equal (λ r, stored_productos pm r.2) Hrun)|].
  split; [exact Hn|]. split; [exact Hp|]. split; [exact Hs | exact Hd].
Defined.

Lemma actualizar_producto_valores_falsos_witness :
  let pm := Sistema.productos_manager Sistema.new in
  let w := world_con [P1; P2] in
  (Py.truth (PStr "") = false ∧ Py.truth (PFloat 0%float) = false ∧ Py.truth PNone = false
   ∧ stored_productos pm w = Ok [P1; P2])
  ∧ stored_productos pm
      (ProductoManager.actualizar_producto pm (PStr "P1") (PStr "") (PFloat 0%float) PNone
         PNone w).2
    = Ok [P1; P2].
Proof.
  intros pm w. split; [repeat split|].
  exact (actualizar_producto_valores_falsos pm (PStr "P1") (PStr "") (PFloat 0%float) PNone
           w [P1; P2] eq_refl eq_refl eq_refl eq_refl).
Defined.

Lemma eliminar_producto_encontrado_witness :
  let pm := Sistema.productos_manager Sistema.new in
  let w := world_con [P1; P2] in
  (stored_productos pm w = Ok ([P1] ++ P2 :: [])
   ∧ (∀ q, q ∈ [P1] → Py.eq (id q) (PStr "P2") = false)
   ∧ mismo_id (id P2) (PStr "P2"))
  ∧ ProductoManager.eliminar_producto pm (PStr "P2") w
    = (Ok tt,
       World (<[ "productos.txt" := Json (productos_json [P1]) ]> (files w))
             [ProductoEliminado (PStr "P2")]).
Proof.
  intros pm w. split; [split; [reflexivity | split; [exact P1_no_es_P2 | reflexivity]]|].
  exact (eliminar_producto_encontrado pm (PStr "P2") w [P1] [] P2 eq_refl
           P1_no_es_P2 eq_refl).
Defined.

Lemma Sistema_eliminar_producto_sin_rastro_witness :
  let s := Sistema.new in
  let pm := Sistema.productos_manager s in
  let w := world_con [P1; P2] in
  let w' := (Sistema.eliminar_producto s "P1" w).2 in
  (stored_productos pm w = Ok [P1; P2] ∧ ids_distintos [P1; P2]
   ∧ primero_con_id (PStr "P1") [P1; P2] 0 P1)
  ∧ stored_productos pm w' = Ok [P2]
  ∧ (∀ q, q ∈ [P2] → id q ≠ PStr "P1")
  ∧ Sistema.eliminar_producto s "P1" w'
    = (Ok tt, World (files w')
                    (stdout w' ++ [Texto "ERROR: No se encontró un producto con ese ID."])).
Proof.
  intros s pm w w'.
  split; [split; [reflexivity | split; [exact ids_distintos_P1_P2 | exact (primero_con_id_P1 [P2])]]|].
  exact (Sistema_eliminar_producto_sin_rastro s "P1" w [P1; P2] 0%nat P1 eq_refl
           ids_distintos_P1_P2 (primero_con_id_P1 [P2])).
Defined.

Lemma Sistema_registrar_eliminar_witness :
  let s := Sistema.new in
  let pm := Sistema.productos_manager s in
  let w := world_con [P1] in
  (stored_productos pm w = Ok [P1] ∧ ∀ p, p ∈ [P1] → Py.eq (id p) (PStr "P3") = false)
  ∧ stored_productos pm
      (Sistema.eliminar_producto s "P3"
         (Sistema.registrar_producto s "P3" "Mouse" 7.5%float "Oficina" 4 w).2).2
    = Ok [P1].
Proof.
  intros s pm w. split; [split; [reflexivity | exact P1_no_es_P3]|].
  exact (Sistema_registrar_eliminar s "P3" "Mouse" 7.5%float "Oficina" 4 w [P1]
           eq_refl P1_no_es_P3).
Defined.

Lemma Sistema_registrar_dos_veces_witness :
  let s := Sistema.new in
  let w := world_con [P1] in
  let w1 := (Sistema.registrar_producto s "P3" "Mouse" 7.5%float "Oficina" 4 w).2 in
  stored_productos (Sistema.productos_manager s) w = Ok [P1]
  ∧ Sistema.registrar_producto s "P3" "Raton" 9%float "Hogar" 1 w1
    = (Ok tt, World (files w1)
                    (stdout w1 ++ [Texto "ERROR: Ya existe un producto con ese ID."])).
Proof.
  intros s w w1. split; [reflexivity|].
  exact (Sistema_registrar_dos_veces s "P3" "Mouse" 7.5%float "Oficina" 4
           "Raton" 9%float "Hogar" 1 w [P1] eq_refl).
Defined.

Lemma Sistema_actualizar_luego_venta_falla_witness :
  let s := Sistema.new in
  let w := world_con [P1] in
  let w1 := (Sistema.actualizar_producto s "P1" "" "" "" "7" w).2 in
  (stored_productos (Sistema.productos_manager s) w = Ok [P1]
   ∧ primero_con_id (PStr "P1") [P1] 0 P1)
  ∧ Sistema.registrar_venta s "P1" 1 "2024-05-01 10:00:00" w1 = (Raise TypeError, w1).
Proof.
  intros s w w1. split; [split; [reflexivity | exact (primero_con_id_P1 [])]|].
  exact (Sistema_actualizar_luego_venta_falla s "P1" "" "" "" "7" 1
           "2024-05-01 10:00:00" w [P1] 0%nat P1 eq_refl (primero_con_id_P1 [])).
Defined.

Lemma actualizar_producto_conserva_ids_witness :
  let pm := Sistema.productos_manager Sistema.new in
  let w := world_con [P1; P2] in
  stored_productos pm w = Ok [P1; P2]
  ∧ ∃ l', stored_productos pm
            (ProductoManager.actualizar_producto pm (PStr "P2") (PStr "Cable USB")
               (PFloat 3%float) PNone (PInt 8) w).2
          = Ok l'
          ∧ (λ q, (id q, descuento q)) <$> l' = (λ q, (id q, descuento q)) <$> [P1; P2].
Proof.
  intros pm w. split; [reflexivity|].
  exact (actualizar_producto_conserva_ids pm (PStr "P2") (PStr "Cable USB")
           (PFloat 3%float) PNone (PInt 8) w [P1; P2] eq_refl).
Defined.

Lemma Sistema_registrar_venta_solo_stock_witness :
  let s := Sistema.new in
  let w := world_con [P1; P2] in
  stored_productos (Sistema.productos_manager s) w = Ok [P1; P2]
  ∧ ∃ l', stored_productos (Sistema.productos_manager s)
            (Sistema.registrar_venta s "P2" 15 "2024-05-01 10:00:00" w).2 = Ok l'
          ∧ sin_stock <$> l' = sin_stock <$> [P1; P2].
Proof.
  intros s w. split; [reflexivity|].
  exact (Sistema_registrar_venta_solo_stock s "P2" 15 "2024-05-01 10:00:00" w [P1; P2]
           eq_refl).
Defined.

Lemma actualizar_stock_no_negativo_witness :
  (stock P1 = PInt 5 ∧ 0 ≤ 5)
  ∧ ∃ p' cabe,
      actualizar_stock P1 3 = Ok (p', cabe)
      ∧ (cabe = true ↔ 3 ≤ 5)
      ∧ stock p' = PInt (if cabe then 5 - 3 else 5)
      ∧ stock_no_negativo p'
      ∧ sin_stock p' = sin_stock P1.
Proof.
  assert (H5 : 0 ≤ 5) by lia.
  split; [split; [reflexivity | exact H5]|].
  exact (actualizar_stock_no_negativo P1 3 5 eq_refl H5).
Defined.

Lemma registrar_venta_ambos_o_ninguno_witness :
  let vm := Sistema.venta_manager Sistema.new in
  let pm := Sistema.productos_manager Sistema.new in
  let w := world_con [P1] in
  let r := VentaManager.registrar_venta vm (PStr "P1") 3 [P1] pm "2024-05-01 10:00:00" w in
  ("notas.txt" ≠ ProductoManager.archivo pm ∧ "notas.txt" ≠ VentaManager.archivo vm)
  ∧ files r.2 !! "notas.txt" = files w !! "notas.txt".
Proof.
  intros vm pm w r.
  assert (Hpm : "notas.txt" ≠ ProductoManager.archivo pm) by (simpl; discriminate).
  assert (Hvm : "notas.txt" ≠ VentaManager.archivo vm) by (simpl; discriminate).
  split; [exact (conj Hpm Hvm)|].
  exact (proj2 (registrar_venta_ambos_o_ninguno vm (PStr "P1") 3 [P1] pm
                  "2024-05-01 10:00:00" w) "notas.txt" Hpm Hvm).
Defined.

Lemma registrar_venta_retorno_witness :
  let vm := Sistema.venta_manager Sistema.new in
  let pm := Sistema.productos_manager Sistema.new in
  let w := world_con [P1] in
  let r := VentaManager.registrar_venta vm (PStr "P1") 3 [P1] pm "2024-05-01 10:00:00" w in
  r.1 = Ok [set_stock P1 (PInt 2)]
  ∧ (([set_stock P1 (PInt 2)] = [P1] ∧ files r.2 = files w)
     ∨ ∃ i p p',
         primero_con_id (PStr "P1") [P1] i p
         ∧ actualizar_stock p 3 = Ok (p', true)
         ∧ [set_stock P1 (PInt 2)] = <[i := p']> [P1]
         ∧ stored_productos pm r.2 = Ok [set_stock P1 (PInt 2)]).
Proof.
  intros vm pm w r. split; [reflexivity|].
  exact (registrar_venta_retorno vm (PStr "P1") 3 [P1] pm "2024-05-01 10:00:00" w
           [set_stock P1 (PInt 2)] eq_refl).
Defined.

(** A sales file that holds one sale: a sale that goes through leaves it
    first and puts the new one after it, and a sale that is refused
    leaves it alone. *)
Lemma registrar_venta_ventas_solo_crecen_witness :
  let vm := Sistema.venta_manager Sistema.new in
  let pm := Sistema.productos_manager Sistema.new in
  let w := world_con_ventas [P1; P2] [VentaP2] in
  let vendido := VentaManager.registrar_venta vm (PStr "P1") 3 [P1; P2] pm
                   "2024-05-01 10:00:00" w in
  let rechazado := VentaManager.registrar_venta vm (PStr "P1") 9 [P1; P2] pm
                     "2024-05-01 10:00:00" w in
  (ProductoManager.archivo pm ≠ VentaManager.archivo vm ∧ stored_ventas vm w = Ok [VentaP2])
  ∧ (∃ nuevas, stored_ventas vm vendido.2 = Ok ([VentaP2] ++ nuevas) ∧ (length nuevas ≤ 1)%nat)
  ∧ stored_ventas vm vendido.2
    = Ok [VentaP2; mkVenta (PStr "P1") (PInt 3) (PStr "2024-05-01 10:00:00") (PFloat 30%float)]
  ∧ (∃ nuevas, stored_ventas vm rechazado.2 = Ok ([VentaP2] ++ nuevas) ∧ (length nuevas ≤ 1)%nat)
  ∧ stored_ventas vm rechazado.2 = Ok [VentaP2].
Proof.
  intros vm pm w vendido rechazado.
  assert (Hne : ProductoManager.archivo pm ≠ VentaManager.archivo vm) by (simpl; discriminate).
  split; [split; [exact Hne | reflexivity]|].
  split; [|split; [reflexivity|split; [|reflexivity]]].
  - exact (registrar_venta_ventas_solo_crecen vm (PStr "P1") 3 [P1; P2] pm
             "2024-05-01 10:00:00" w [VentaP2] Hne eq_refl).
  - exact (registrar_venta_ventas_solo_crecen vm (PStr "P1") 9 [P1; P2] pm
             "2024-05-01 10:00:00" w [VentaP2] Hne eq_refl).
Defined.

Lemma registrar_venta_cantidad_negativa_witness :
  let vm := Sistema.venta_manager Sistema.new in
  let pm := Sistema.productos_manager Sistema.new in
  let w := world_con [P1] in
  let r := VentaManager.registrar_venta vm (PStr "P1") (-2) [P1] pm "2024-05-01 10:00:00" w in
  (primero_con_id (PStr "P1") [P1] 0 P1
   ∧ stock P1 = PInt 5 ∧ 0 ≤ 5 ∧ -2 < 0
   ∧ precio P1 = PFloat 10%float ∧ Py.float_of_int (-2) = Ok (-2)%float
   ∧ stored_ventas vm w = Ok []
   ∧ ProductoManager.archivo pm ≠ VentaManager.archivo vm)
  ∧ stored_productos pm r.2 = Ok [set_stock P1 (PInt 7)]
  ∧ 5 < 7
  ∧ stored_ventas vm r.2
    = Ok [mkVenta (PStr "P1") (PInt (-2)) (PStr "2024-05-01 10:00:00") (PFloat (-20)%float)].
Proof.
  intros vm pm w r.
  assert (Hne : ProductoManager.archivo pm ≠ VentaManager.archivo vm) by (simpl; discriminate).
  assert (H5 : 0 ≤ 5) by lia.
  assert (Hneg : -2 < 0) by lia.
  split.
  - split; [exact (primero_con_id_P1 [])|]. split; [reflexivity|].
    split; [exact H5|]. split; [exact Hneg|]. repeat split. exact Hne.
  - exact (registrar_venta_cantidad_negativa vm (PStr "P1") (-2) [P1] pm
             "2024-05-01 10:00:00" w 0%nat P1 5 10%float (-2)%float []
             (primero_con_id_P1 []) eq_refl H5 Hneg eq_refl eq_refl eq_refl Hne).
Defined.

Lemma desde_json_Permutation_witness :
  let d := [("stock", PInt 5); ("id", PStr "P1"); ("nombre", PStr "Teclado");
            ("precio", PFloat 10%float); ("categoria", PStr "Oficina")] in
  d ≡ₚ Producto_dict P1 ∧ ProductoManager.desde_json (PDict d) = Ok P1.
Proof.
  intros d.
  assert (Hperm : d ≡ₚ Producto_dict P1).
  { subst d.
    exact (Permutation_cons_append
             [("id", PStr "P1"); ("nombre", PStr "Teclado"); ("precio", PFloat 10%float);
              ("categoria", PStr "Oficina")]
             ("stock", PInt 5)). }
  split; [exact Hperm|]. exact (desde_json_Permutation P1 d Hperm).
Defined.

Lemma desde_json_Ok_inv_witness :
  ProductoManager.desde_json (PDict (Producto_dict P2)) = Ok P2
  ∧ ∃ d, PDict (Producto_dict P2) = PDict d ∧ ∀ k, assoc k d = assoc k (Producto_dict P2).
Proof.
  split; [reflexivity|].
  exact (desde_json_Ok_inv (PDict (Producto_dict P2)) P2 eq_refl).
Defined.

Lemma cargar_productos_registro_ajeno_witness :
  let pm := Sistema.productos_manager Sistema.new in
  let sin_stock_d := PDict [("id", PStr "P1"); ("nombre", PStr "Teclado");
                            ("precio", PFloat 10%float); ("categoria", PStr "Oficina")] in
  let w := World {[ "productos.txt" := Json (PList [sin_stock_d]) ]} [] in
  (files w !! ProductoManager.archivo pm = Some (Json (PList [sin_stock_d]))
   ∧ sin_stock_d ∈ [sin_stock_d])
  ∧ ProductoManager.cargar_productos pm w = (Raise TypeError, w).
Proof.
  intros pm sin_stock_d w.
  assert (Hin : sin_stock_d ∈ [sin_stock_d]) by apply list_elem_of_here.
  split; [split; [reflexivity | exact Hin]|].
  refine (cargar_productos_registro_ajeno pm w [sin_stock_d] sin_stock_d eq_refl Hin _).
  right. eexists _, "stock". split; [reflexivity|]. split; [|reflexivity].
  do 4 apply list_elem_of_further. apply list_elem_of_here.
Defined.

Lemma carga_fallida_se_propaga_witness :
  let s := Sistema.new in
  let pm := Sistema.productos_manager s in
  let w := World {[ "productos.txt" := Json (PList [PInt 1]) ]} [] in
  stored_productos pm w = Raise TypeError
  ∧ ProductoManager.registrar_producto pm P1 w = (Raise TypeError, w)
  ∧ ProductoManager.eliminar_producto pm (PStr "P1") w = (Raise TypeError, w)
  ∧ Sistema.registrar_venta s "P1" 1 "2024-05-01 10:00:00" w = (Raise TypeError, w).
Proof.
  intros s pm w. split; [reflexivity|].
  pose proof (carga_fallida_se_propaga s w TypeError P1 (PStr "P1") PNone PNone PNone PNone
                "P1" 1 "2024-05-01 10:00:00" eq_refl) as (Hreg & _ & Hdel & Hven).
  exact (conj Hreg (conj Hdel Hven)).
Defined.
